(** * ATS resume screening front end: the ResumeUpload component

    A shallow embedding of the two variants of the React component
    [ResumeUpload] (the earlier one, kept in module [ResumeUpload], and the
    current one, [ResumeUploadImproved]), together with the part of the
    JavaScript run time their handlers rely on.

    - JavaScript values are an inductive type; numbers are the extended
      rationals with NaN (every IEEE double is one of them, and the only
      operations the component applies to numbers: comparison, [Math.round],
      [Math.min], [Math.max], are exact on doubles).
    - Strings are sequences of code units below 256 (the Latin-1 range), on
      which [trim] and [toLowerCase] are given in full.  Module [Wide] adds
      the Greek sigmas, whose lower case depends on the place in the string,
      and gives the list filter on that alphabet.
    - An [async] handler is a small program ([proc]): state-setter calls,
      effects and awaits, with the continuation of every await taking the
      outcome of the awaited call.  React state is passed explicitly.

    A first draft of the component, which reports every failure with one
    fixed message and has no success message, is kept in module
    [ResumeUploadDraft]. *)

From Stdlib Require Import Ascii QArith Qround Lqa.
From stdpp Require Import base strings list gmap pretty.

Local Open Scope string_scope.

(** ** JavaScript values and built-ins *)

Module JS.

(** A JavaScript number. *)
Inductive num : Type :=
| NaN
| PosInf
| NegInf
| Fin (q : Q).

(** A JavaScript value as it can arrive in a parsed response body. *)
#[local] Unset Elimination Schemes.
Inductive value : Type :=
| VUndefined
| VNull
| VBool (b : bool)
| VNum (n : num)
| VStr (s : string)
| VArr (xs : list value)
| VObj (fields : list (string * value)).
#[local] Set Elimination Schemes.

(** [a <= b] on numbers: false as soon as one side is NaN. *)
Definition num_le (a b : num) : bool :=
  match a, b with
  | NaN, _ | _, NaN => false
  | NegInf, _ => true
  | _, PosInf => true
  | Fin x, Fin y => Qle_bool x y
  | _, _ => false
  end.

(** [a >= b]. *)
Definition num_ge (a b : num) : bool := num_le b a.

(** [Math.round]: nearest integer, ties towards plus infinity. *)
Definition Math_round (n : num) : num :=
  match n with
  | Fin q => Fin (inject_Z (Qfloor (q + (1 # 2))))
  | _ => n
  end.

(** [Math.min(a, b)]: NaN if either argument is NaN. *)
Definition Math_min (a b : num) : num :=
  match a, b with
  | NaN, _ | _, NaN => NaN
  | _, _ => if num_le a b then a else b
  end.

(** [Math.max(a, b)]: NaN if either argument is NaN. *)
Definition Math_max (a b : num) : num :=
  match a, b with
  | NaN, _ | _, NaN => NaN
  | _, _ => if num_le a b then b else a
  end.

(** ToBoolean. *)
Definition truthy (v : value) : bool :=
  match v with
  | VUndefined | VNull => false
  | VBool b => b
  | VNum NaN => false
  | VNum (Fin q) => negb (Qeq_bool q 0)
  | VNum _ => true
  | VStr s => negb (String.eqb s "")
  | VArr _ | VObj _ => true
  end.

(** [typeof v === "number"]. *)
Definition is_number (v : value) : bool :=
  match v with VNum _ => true | _ => false end.

(** Own property of an object literal, [undefined] when missing. *)
Fixpoint assoc (k : string) (fields : list (string * value)) : value :=
  match fields with
  | [] => VUndefined
  | (k', v) :: rest => if String.eqb k k' then v else assoc k rest
  end.

(** [v?.k] for a property name [k] that no built-in prototype defines
    (the component only reads [ats_score], [keyword_overlap],
    [semantic_similarity], [match_score], [feedback], [strengths],
    [weaknesses] and [error]): [undefined] on [null], [undefined] and on
    every primitive and array. *)
Definition opt_member (v : value) (k : string) : value :=
  match v with
  | VObj fields => assoc k fields
  | _ => VUndefined
  end.

(** [v.k], read by the component only where [v] is known to be truthy, so
    that no TypeError can arise and [.] agrees with [?.]. *)
Definition member (v : value) (k : string) : value := opt_member v k.

(** [a ?? b]. *)
Definition nullish_or (a b : value) : value :=
  match a with
  | VUndefined | VNull => b
  | _ => a
  end.

(** [a || b]. *)
Definition or_else (a b : value) : value := if truthy a then a else b.

(** WhiteSpace and LineTerminator code units below 256:
    TAB, LF, VT, FF, CR, SP and NBSP. *)
Definition is_white_space (c : ascii) : bool :=
  let n := N_of_ascii c in
  ((9 <=? n) && (n <=? 13) || (n =? 32) || (n =? 160))%N.

Fixpoint trimStart (s : string) : string :=
  match s with
  | EmptyString => EmptyString
  | String c s' => if is_white_space c then trimStart s' else s
  end.

Definition trimEnd (s : string) : string :=
  String.rev (trimStart (String.rev s)).

(** [String.prototype.trim]. *)
Definition trim (s : string) : string := trimEnd (trimStart s).

(** Lower-case mapping of one code unit below 256: A-Z and the capital
    letters U+00C0..U+00DE except the multiplication sign U+00D7. *)
Definition lower_unit (c : ascii) : ascii :=
  let n := N_of_ascii c in
  if ((65 <=? n) && (n <=? 90)
      || (192 <=? n) && (n <=? 222) && negb (n =? 215))%N
  then ascii_of_N (n + 32) else c.

(** [String.prototype.toLowerCase]. *)
Fixpoint toLowerCase (s : string) : string :=
  match s with
  | EmptyString => EmptyString
  | String c s' => String (lower_unit c) (toLowerCase s')
  end.

(** [s.startsWith(q)]. *)
Fixpoint startsWith (s q : string) : bool :=
  match q, s with
  | EmptyString, _ => true
  | String _ _, EmptyString => false
  | String b q', String a s' => if Ascii.eqb a b then startsWith s' q' else false
  end.

(** [s.includes(q)]: [q] occurs in [s] at some position. *)
Fixpoint includes (s q : string) : bool :=
  startsWith s q ||
  match s with
  | EmptyString => false
  | String _ s' => includes s' q
  end.

(** [Array.prototype.filter] on the elements of an array, in index order. *)
Fixpoint Array_filter {A : Type} (keep : A -> bool) (xs : list A) : list A :=
  match xs with
  | [] => []
  | x :: rest => if keep x then x :: Array_filter keep rest
                 else Array_filter keep rest
  end.

(** Arrays live in a store and are handled by reference. *)
Definition loc : Type := positive.

(** [filter] allocates the array it returns and writes to no other. *)
Definition Array_filter_at {A : Type} (keep : A -> bool) (a : loc)
    (h : gmap loc (list A)) : option (loc * gmap loc (list A)) :=
  match h !! a with
  | None => None
  | Some xs =>
      let r := fresh (dom h) in
      Some (r, <[r := Array_filter keep xs]> h)
  end.

(** The string elements of an array value; [None] stands for the TypeError
    raised when [filter] is missing or an element has no [toLowerCase]. *)
Fixpoint strings_of (xs : list value) : option (list string) :=
  match xs with
  | [] => Some []
  | VStr s :: rest =>
      match strings_of rest with
      | Some l => Some (s :: l)
      | None => None
      end
  | _ :: _ => None
  end.

End JS.

(** ** The HTTP client and the browser, as seen from the component *)

Module Http.
Import JS.

(** A [File] chosen in the file input. *)
Record File : Type := { name : string; payload : string }.

(** One field of a [FormData]. *)
Inductive entry : Type :=
| EFile (f : File)
| EText (s : string).

Definition FormData : Type := list (string * entry).

(** [formData.append(k, v)]. *)
Definition append (fd : FormData) (k : string) (v : entry) : FormData :=
  (fd ++ [(k, v)])%list.

(** [formData.has(k)]. *)
Definition has (fd : FormData) (k : string) : bool :=
  existsb (fun kv => String.eqb (fst kv) k) fd.

(** [formData.get(k)]. *)
Fixpoint get (fd : FormData) (k : string) : option entry :=
  match fd with
  | [] => None
  | (k', v) :: rest => if String.eqb k' k then Some v else get rest k
  end.

Inductive body : Type :=
| Multipart (fd : FormData)
| Json (v : value).

(** The request options the component passes to [axios.post]. *)
Record config : Type :=
  { headers : list (string * string); responseType : option string }.

Record request : Type := { url : string; data : body; options : config }.

(** [res] of a fulfilled call, [err.response] of a rejected one. *)
Record response : Type := { status : N; rdata : value }.

(** The error [axios] rejects with: [err.response] (when the server
    answered), whether [err.request] is set, and [err.message]. *)
Record AxiosError : Type :=
  { eresponse : option response; erequest : bool; emessage : string }.

Inductive outcome : Type :=
| Fulfilled (res : response)
| Rejected (err : AxiosError).

End Http.

(** ** Handlers as programs over the component state *)

Module React.
Import JS Http.

(** The [useState] cells of the component.  The earlier variant has no
    filter cells; it never reads or writes them. *)
Record state : Type :=
  { resume : option File;
    jobDescription : string;
    loading : bool;
    result : value;
    error : value;
    success : string;
    strengthsFilter : string;
    weaknessesFilter : string }.

(** The state of a freshly mounted component. *)
Definition initial : state :=
  {| resume := None; jobDescription := ""; loading := false;
     result := VNull; error := VStr ""; success := "";
     strengthsFilter := ""; weaknessesFilter := "" |}.

Definition set_resume (f : option File) (st : state) : state :=
  {| resume := f; jobDescription := jobDescription st; loading := loading st;
     result := result st; error := error st; success := success st;
     strengthsFilter := strengthsFilter st;
     weaknessesFilter := weaknessesFilter st |}.

Definition set_jobDescription (s : string) (st : state) : state :=
  {| resume := resume st; jobDescription := s; loading := loading st;
     result := result st; error := error st; success := success st;
     strengthsFilter := strengthsFilter st;
     weaknessesFilter := weaknessesFilter st |}.

Definition set_loading (b : bool) (st : state) : state :=
  {| resume := resume st; jobDescription := jobDescription st; loading := b;
     result := result st; error := error st; success := success st;
     strengthsFilter := strengthsFilter st;
     weaknessesFilter := weaknessesFilter st |}.

Definition set_result (v : value) (st : state) : state :=
  {| resume := resume st; jobDescription := jobDescription st;
     loading := loading st; result := v; error := error st;
     success := success st; strengthsFilter := strengthsFilter st;
     weaknessesFilter := weaknessesFilter st |}.

Definition set_error (v : value) (st : state) : state :=
  {| resume := resume st; jobDescription := jobDescription st;
     loading := loading st; result := result st; error := v;
     success := success st; strengthsFilter := strengthsFilter st;
     weaknessesFilter := weaknessesFilter st |}.

Definition set_success (s : string) (st : state) : state :=
  {| resume := resume st; jobDescription := jobDescription st;
     loading := loading st; result := result st; error := error st;
     success := s; strengthsFilter := strengthsFilter st;
     weaknessesFilter := weaknessesFilter st |}.

Definition set_strengthsFilter (s : string) (st : state) : state :=
  {| resume := resume st; jobDescription := jobDescription st;
     loading := loading st; result := result st; error := error st;
     success := success st; strengthsFilter := s;
     weaknessesFilter := weaknessesFilter st |}.


(** What a handler does besides setting state and awaiting. *)
Inductive effect : Type :=
| PreventDefault
| ConsoleError (err : AxiosError)
| SaveLink (download : string) (blobParts : list value)
| SetTimeout (callback : state -> state) (ms : N).

(** A handler body.  [AwaitPost] is [await axios.post(..)], [AwaitWriteText]
    is [await navigator.clipboard.writeText(..)]; the continuation gets the
    outcome, [true] standing for a fulfilled clipboard write. *)
Inductive proc : Type :=
| Return
| Update (f : state -> state) (k : proc)
| Do (e : effect) (k : proc)
| AwaitPost (req : request) (k : outcome -> proc)
| AwaitWriteText (text : string) (k : bool -> proc).

(** Where a handler stands when it gives control back. *)
Inductive suspended : Type :=
| Finished
| OnPost (req : request) (k : outcome -> proc)
| OnWriteText (text : string) (k : bool -> proc).

(** Runs a handler up to its end or its next await. *)
Fixpoint run (p : proc) (st : state) : state * list effect * suspended :=
  match p with
  | Return => (st, [], Finished)
  | Update f k => run k (f st)
  | Do e k => let '(st', es, s) := run k st in (st', e :: es, s)
  | AwaitPost req k => (st, [], OnPost req k)
  | AwaitWriteText text k => (st, [], OnWriteText text k)
  end.

Definition state_after (p : proc) (st : state) : state := (run p st).1.1.
Definition effects_of (p : proc) (st : state) : list effect := (run p st).1.2.
Definition rest_of (p : proc) (st : state) : suspended := (run p st).2.

(** The request a handler is waiting on, if any. *)
Definition request_of (s : suspended) : option request :=
  match s with OnPost req _ => Some req | _ => None end.

(** The continuation of a pending [axios.post]. *)
Definition on_settled (s : suspended) (o : outcome) : proc :=
  match s with OnPost _ k => k o | _ => Return end.

(** The continuation of a pending clipboard write. *)
Definition on_written (s : suspended) (ok : bool) : proc :=
  match s with OnWriteText _ k => k ok | _ => Return end.


(** *** The page: component state, clock and timer queue *)

Record world : Type :=
  { ui : state;
    clock : N;
    timers : list (N * (state -> state));
    log : list effect }.

(** Timers are kept by due time, first set first among equals. *)
Fixpoint enqueue (due : N) (cb : state -> state)
    (ts : list (N * (state -> state))) : list (N * (state -> state)) :=
  match ts with
  | [] => [(due, cb)]
  | (d, c) :: rest => if (d <=? due)%N then (d, c) :: enqueue due cb rest
                      else (due, cb) :: ts
  end.

Fixpoint schedule (now : N) (es : list effect)
    (ts : list (N * (state -> state))) : list (N * (state -> state)) :=
  match es with
  | [] => ts
  | SetTimeout cb ms :: rest => schedule now rest (enqueue (now + ms)%N cb ts)
  | _ :: rest => schedule now rest ts
  end.

(** Runs a handler (or a continuation) on the page. *)
Definition exec (p : proc) (w : world) : world * suspended :=
  let '(st, es, s) := run p (ui w) in
  ({| ui := st; clock := clock w;
      timers := schedule (clock w) es (timers w);
      log := (log w ++ es)%list |}, s).

(** Fires, in order, the timers due at time [t]. *)
Fixpoint fire_due (t : N) (ts : list (N * (state -> state))) (st : state)
    : state * list (N * (state -> state)) :=
  match ts with
  | [] => (st, [])
  | (d, cb) :: rest => if (d <=? t)%N then fire_due t rest (cb st)
                       else (st, ts)
  end.

(** Lets [dt] milliseconds pass with no other event. *)
Definition advance (dt : N) (w : world) : world :=
  let t := (clock w + dt)%N in
  let '(st, ts) := fire_due t (timers w) (ui w) in
  {| ui := st; clock := t; timers := ts; log := log w |}.

End React.

(** ** What both variants of the component share *)

Module Component.
Import JS Http React.

Definition setResume (f : option File) : proc -> proc := Update (set_resume f).
Definition setLoading (b : bool) : proc -> proc := Update (set_loading b).
Definition setResult (v : value) : proc -> proc := Update (set_result v).
Definition setError (v : value) : proc -> proc := Update (set_error v).
Definition setSuccess (s : string) : proc -> proc := Update (set_success s).

(** [handleFileChange]: [e.target.files[0]] is [undefined] when the dialog
    is left without a choice. *)
Definition handleFileChange (file : option File) : proc :=
  setResume file $ setSuccess "" $ setError (VStr "") $ Return.

(** [getScoreColor], called by both variants on a value whose [typeof] is
    ["number"]. *)
Definition getScoreColor (score : num) : string :=
  if num_ge score (Fin 80) then "success"
  else if num_ge score (Fin 60) then "info"
  else if num_ge score (Fin 40) then "warning"
  else "error".

(** The fixed messages of [handleSubmit]. *)
Definition msg_no_resume : string := "Please upload a resume file.".
Definition msg_no_response : string :=
  "No response from the server. Please ensure the backend is running and reachable.".
Definition msg_evaluated : string := "Resume evaluated successfully!".

(** The template literal of the [err.response] branch. *)
Definition msg_status (code : N) : string :=
  "Server returned " ++ pretty code
  ++ ". Please check your resume and try again.".

(** The [catch] block of [handleSubmit]: the value handed to [setError]. *)
Definition errorMessage (err : AxiosError) : value :=
  match eresponse err with
  | Some r => or_else (opt_member (rdata r) "error") (VStr (msg_status (status r)))
  | None =>
      if erequest err then VStr msg_no_response
      else VStr ("Error: " ++ emessage err)
  end.

(** The [FormData] built by [handleSubmit]. *)
Definition formData (file : File) (jobDescription : string) : FormData :=
  let fd := append [] "resume" (EFile file) in
  if truthy (VStr (trim jobDescription))
  then append fd "job_description" (EText jobDescription)
  else fd.

(** [handleSubmit]; the two variants differ in the upload address only. *)
Definition handleSubmit (upload_url : string) (st : state) : proc :=
  Do PreventDefault $
  match resume st with
  | None => setError (VStr msg_no_resume) $ Return
  | Some file =>
      let fd := formData file (jobDescription st) in
      setLoading true $ setError (VStr "") $ setResult VNull $ setSuccess "" $
      AwaitPost
        {| url := upload_url; data := Multipart fd;
           options := {| headers := [("Content-Type", "multipart/form-data")];
                         responseType := None |} |}
        (fun o =>
           match o with
           | Fulfilled res =>
               setResult (rdata res) $ setSuccess msg_evaluated $
               setLoading false $ Return
           | Rejected err =>
               Do (ConsoleError err) $ setError (errorMessage err) $
               setLoading false $ Return
           end)
  end.

(** The four metrics of an evaluation result and their field names. *)
Inductive metric : Type :=
| ats_score
| keyword_overlap
| semantic_similarity
| match_score.

Definition field (m : metric) : string :=
  match m with
  | ats_score => "ats_score"
  | keyword_overlap => "keyword_overlap"
  | semantic_similarity => "semantic_similarity"
  | match_score => "match_score"
  end.

(** The elements of the results panel that show a metric. *)
Inductive node : Type :=
| ScorePill (label : string) (normalized : num) (color : string)
| AtsScore (shown : num) (bar : num) (color : string)
| Line (label : string) (shown : num).

End Component.

(** ** The earlier variant *)

Module ResumeUpload.
Import JS Http React Component.

Definition upload_url : string := "http://localhost:8000/api/upload".

Definition handleSubmit : state -> proc := Component.handleSubmit upload_url.

(** The metric part of the results panel. *)
Definition scores (result : value) : list node :=
  ((match member result "ats_score" with
    | VNum n => [AtsScore n n (getScoreColor n)]
    | _ => []
    end) ++
   (match member result "keyword_overlap" with
    | VNum n => [Line "Keyword Overlap: " n]
    | _ => []
    end) ++
   (match member result "semantic_similarity" with
    | VNum n => [Line "Semantic Similarity: " n]
    | _ => []
    end) ++
   (match member result "match_score" with
    | VNum n => [Line "Overall Match Score: " n]
    | _ => []
    end))%list.

(** [{result && (...)}]: nothing is rendered for a falsy result. *)
Definition results (st : state) : option (list node) :=
  if truthy (result st) then Some (scores (result st)) else None.

(** The metric a node of this variant displays, with the number shown. *)
Definition shows (n : node) : option (metric * num) :=
  match n with
  | AtsScore v _ _ => Some (ats_score, v)
  | Line label v =>
      if String.eqb label "Keyword Overlap: " then Some (keyword_overlap, v)
      else if String.eqb label "Semantic Similarity: "
           then Some (semantic_similarity, v)
      else if String.eqb label "Overall Match Score: "
           then Some (match_score, v)
      else None
  | ScorePill _ _ _ => None
  end.

End ResumeUpload.

(** ** The current variant *)

Module ResumeUploadImproved.
Import JS Http React Component.

Section Host.

(** [import.meta.env.VITE_API_URL] as the template literals print it. *)
Variable VITE_API_URL : string.

(** ToNumber on strings (numeric literal syntax, rounded to a double) and
    on arrays and objects (through ToPrimitive): taken from the host. *)
Variable StringToNumber : string -> num.
Variable ObjectToNumber : value -> num.

(** ToNumber, the coercion [Math.round] applies to its argument. *)
Definition ToNumber (v : value) : num :=
  match v with
  | VUndefined => NaN
  | VNull => Fin 0
  | VBool true => Fin 1
  | VBool false => Fin 0
  | VNum n => n
  | VStr s => StringToNumber s
  | VArr _ | VObj _ => ObjectToNumber v
  end.

(** [getColor] of [ScorePill]. *)
Definition getColor (v : num) : string :=
  if num_ge v (Fin 80) then "success"
  else if num_ge v (Fin 60) then "info"
  else if num_ge v (Fin 40) then "warning"
  else "error".

(** [normalized] of [ScorePill]. *)
Definition normalized (v : value) : num :=
  Math_max (Fin 0) (Math_min (Fin 100) (Math_round (ToNumber v))).

(** The [ScorePill] component. *)
Definition ScorePill (label : string) (v : value) : node :=
  Component.ScorePill label (normalized v) (getColor (normalized v)).

Definition upload_url : string := VITE_API_URL ++ "/api/upload".
Definition download_url : string := VITE_API_URL ++ "/api/download_feedback_pdf".

Definition handleSubmit : state -> proc := Component.handleSubmit upload_url.

Definition msg_no_feedback : string := "No feedback available to export.".
Definition msg_download_failed : string :=
  "Failed to download PDF. Please try again.".

(** [handleDownloadPDF]. *)
Definition handleDownloadPDF (st : state) : proc :=
  if negb (truthy (result st))
  then setError (VStr msg_no_feedback) $ Return
  else
    AwaitPost
      {| url := download_url; data := Json (result st);
         options := {| headers := []; responseType := Some "blob" |} |}
      (fun o =>
         match o with
         | Fulfilled response =>
             Do (SaveLink "resume_feedback.pdf" [rdata response]) $ Return
         | Rejected err =>
             Do (ConsoleError err) $ setError (VStr msg_download_failed) $
             Return
         end).

(** The [onClick] of the Reset button. *)
Definition reset : proc :=
  setResult VNull $ setError (VStr "") $ setSuccess "" $ setResume None $
  Return.


(** [strengths] and [weaknesses]: [result?.strengths || []]. *)
Definition strengths (result : value) : value :=
  or_else (opt_member result "strengths") (VArr []).
Definition weaknesses (result : value) : value :=
  or_else (opt_member result "weaknesses") (VArr []).

(** The callback of the two filters:
    [s.toLowerCase().includes(query.toLowerCase())]. *)
Definition matches (query s : string) : bool :=
  includes (toLowerCase s) (toLowerCase query).

(** [list.filter(s => s.toLowerCase().includes(query.toLowerCase()))]. *)
Definition filter (items : list string) (query : string) : list string :=
  Array_filter (matches query) items.

(** [filteredStrengths] and [filteredWeaknesses]; [None] is the TypeError of
    a list that is not an array of strings. *)
Definition filtered (source : value) (query : string) : option (list string) :=
  match source with
  | VArr xs =>
      match strings_of xs with
      | Some l => Some (filter l query)
      | None => None
      end
  | _ => None
  end.

Definition filteredStrengths (st : state) : option (list string) :=
  filtered (strengths (result st)) (strengthsFilter st).
Definition filteredWeaknesses (st : state) : option (list string) :=
  filtered (weaknesses (result st)) (weaknessesFilter st).

(** [copyToClipboard]. *)
Definition copyToClipboard (text : string) : proc :=
  AwaitWriteText text
    (fun ok =>
       if ok
       then setSuccess "Copied to clipboard" $
            Do (SetTimeout (set_success "") 2000) $ Return
       else setError (VStr "Failed to copy") $ Return).

(** The metric part of the results panel: three pills, then the ATS bar. *)
Definition scores (result : value) : list node :=
  ([ScorePill "Keyword" (nullish_or (member result "keyword_overlap") (VNum (Fin 0)));
    ScorePill "Semantic" (nullish_or (member result "semantic_similarity") (VNum (Fin 0)));
    ScorePill "Match" (nullish_or (member result "match_score") (VNum (Fin 0)))] ++
   (match member result "ats_score" with
    | VNum n =>
        [AtsScore n (Math_max (Fin 0) (Math_min (Fin 100) n)) (getScoreColor n)]
    | _ => []
    end))%list.

(** [{result && (...)}]. *)
Definition results (st : state) : option (list node) :=
  if truthy (result st) then Some (scores (result st)) else None.

End Host.

(** The metric a node of this variant displays, with the number shown. *)
Definition shows (n : node) : option (metric * num) :=
  match n with
  | AtsScore v _ _ => Some (ats_score, v)
  | Component.ScorePill label v _ =>
      if String.eqb label "Keyword" then Some (keyword_overlap, v)
      else if String.eqb label "Semantic" then Some (semantic_similarity, v)
      else if String.eqb label "Match" then Some (match_score, v)
      else None
  | Line _ _ => None
  end.

End ResumeUploadImproved.

(** ** Notions the properties are stated with *)

Module Spec.
Import JS Http React Component.

(** [v >= b] and [v < b] for a score that is a number. *)
Definition at_least (v : num) (b : Q) : Prop :=
  match v with
  | Fin q => (b <= q)%Q
  | PosInf => True
  | NegInf | NaN => False
  end.

Definition below (v : num) (b : Q) : Prop :=
  match v with
  | Fin q => (q < b)%Q
  | NegInf => True
  | PosInf | NaN => False
  end.

(** [query] occurs in [s] when case is ignored. *)
Definition ci_substring (query s : string) : Prop :=
  exists pre post, toLowerCase s = pre ++ toLowerCase query ++ post.

(** [out] is [items] with exactly the elements satisfying [P] kept, in the
    order of [items]. *)
Inductive kept {A : Type} (P : A -> Prop) : list A -> list A -> Prop :=
| kept_nil : kept P [] []
| kept_take x items out : P x -> kept P items out -> kept P (x :: items) (x :: out)
| kept_drop x items out : ~ P x -> kept P items out -> kept P (x :: items) out.

(** A string made of white space only (the empty string included). *)
Fixpoint blank (s : string) : bool :=
  match s with
  | EmptyString => true
  | String c s' => is_white_space c && blank s'
  end.

(** A value is absent: [undefined] or [null]. *)
Definition absent (v : value) : Prop := v = VUndefined \/ v = VNull.

(** The state after a submit whose request settles with [o], no other event
    coming in between.  A submit stopped by the missing-file check never
    issues the request, and [o] is then ignored. *)
Definition submit_and_settle (upload_url : string) (st : state) (o : outcome)
    : state :=
  let '(st1, _, s) := run (handleSubmit upload_url st) st in
  state_after (on_settled s o) st1.

(** The effects of such a submit, in order. *)
Definition submit_effects (upload_url : string) (st : state) (o : outcome)
    : list effect :=
  let '(st1, es, s) := run (handleSubmit upload_url st) st in
  (es ++ effects_of (on_settled s o) st1)%list.

End Spec.

(** ** Sample inputs *)

Module Sample.
Import JS Http React Component.

Definition cv : File := {| name := "cv.pdf"; payload := "%PDF-1.7" |}.

(** The response body [{ ats_score: 85, feedback: "Good match" }]. *)
Definition good_match : value :=
  VObj [("ats_score", VNum (Fin 85)); ("feedback", VStr "Good match")].

(** A file has been chosen. *)
Definition chosen : state := set_resume (Some cv) initial.

(** A job description of spaces only, and one with text. *)
Definition with_blank_job : state := set_jobDescription "   " chosen.
Definition with_job : state := set_jobDescription " Data engineer " chosen.

(** An evaluation has come back and is on display. *)
Definition evaluated : state :=
  set_success msg_evaluated (set_result good_match chosen).

(** The server cannot be reached. *)
Definition network_down : AxiosError :=
  {| eresponse := None; erequest := true; emessage := "Network Error" |}.

(** The server answers 500 with [{ error: "corrupt file" }]. *)
Definition corrupt_file : AxiosError :=
  {| eresponse := Some {| status := 500;
                          rdata := VObj [("error", VStr "corrupt file")] |};
     erequest := true;
     emessage := "Request failed with status code 500" |}.

(** The server answers 422 with [{ error: "" }]. *)
Definition empty_error : AxiosError :=
  {| eresponse := Some {| status := 422; rdata := VObj [("error", VStr "")] |};
     erequest := true;
     emessage := "Request failed with status code 422" |}.

(** The request could not be set up. *)
Definition bad_setup : AxiosError :=
  {| eresponse := None; erequest := false; emessage := "Invalid URL" |}.

(** The page showing an evaluation, with no timer pending. *)
Definition page : world :=
  {| ui := evaluated; clock := 0; timers := []; log := [] |}.

End Sample.

(** ** The first draft of the component *)

Module ResumeUploadDraft.
Import JS Http React Component.

(** The draft has no success cell and no filter cells: it never reads or
    writes [success], [strengthsFilter] and [weaknessesFilter]. *)

Definition upload_url : string := "http://localhost:8000/api/upload".

(** [handleFileChange]: the file only. *)
Definition handleFileChange (file : option File) : proc :=
  setResume file $ Return.

Definition msg_failed : string :=
  "Failed to process the resume. Please try again.".

(** [handleSubmit]: one message for every failure. *)
Definition handleSubmit (st : state) : proc :=
  Do PreventDefault $
  match resume st with
  | None => setError (VStr msg_no_resume) $ Return
  | Some file =>
      let fd := formData file (jobDescription st) in
      setLoading true $ setError (VStr "") $ setResult VNull $
      AwaitPost
        {| url := upload_url; data := Multipart fd;
           options := {| headers := [("Content-Type", "multipart/form-data")];
                         responseType := None |} |}
        (fun o =>
           match o with
           | Fulfilled res => setResult (rdata res) $ setLoading false $ Return
           | Rejected err =>
               Do (ConsoleError err) $ setError (VStr msg_failed) $
               setLoading false $ Return
           end)
  end.

(** The metric part of the results panel: four plain lines. *)
Definition scores (result : value) : list node :=
  ((match member result "ats_score" with
    | VNum n => [Line "ATS Score: " n]
    | _ => []
    end) ++
   (match member result "keyword_overlap" with
    | VNum n => [Line "Keyword Overlap: " n]
    | _ => []
    end) ++
   (match member result "semantic_similarity" with
    | VNum n => [Line "Semantic Similarity: " n]
    | _ => []
    end) ++
   (match member result "match_score" with
    | VNum n => [Line "Overall Match Score: " n]
    | _ => []
    end))%list.

Definition results (st : state) : option (list node) :=
  if truthy (result st) then Some (scores (result st)) else None.

(** The metric a line of the draft displays, with the number shown. *)
Definition shows (n : node) : option (metric * num) :=
  match n with
  | Line label v =>
      if String.eqb label "ATS Score: " then Some (ats_score, v)
      else if String.eqb label "Keyword Overlap: " then Some (keyword_overlap, v)
      else if String.eqb label "Semantic Similarity: "
           then Some (semantic_similarity, v)
      else if String.eqb label "Overall Match Score: "
           then Some (match_score, v)
      else None
  | _ => None
  end.

End ResumeUploadDraft.

(** ** What the component puts on the page besides the metrics *)

Module View.
Import JS Http React Component.

(** The two [Alert]s: [{error && ...}] and [{success && ...}]. *)
Inductive alert : Type :=
| ErrorAlert (text : value)
| SuccessAlert (text : string).

Definition alerts (st : state) : list alert :=
  ((if truthy (error st) then [ErrorAlert (error st)] else []) ++
   (if truthy (VStr (success st)) then [SuccessAlert (success st)] else []))%list.

(** The only alert of the draft. *)
Definition draft_alerts (st : state) : list alert :=
  if truthy (error st) then [ErrorAlert (error st)] else [].

(** [disabled={loading}] of the submit button. *)
Definition submitDisabled (st : state) : bool := loading st.

(** [disabled={!result}] of the Export PDF button. *)
Definition exportDisabled (st : state) : bool := negb (truthy (result st)).

(** A column of the current variant: the chips of the filtered list, or
    the caption shown when [filtered.length > 0] fails. *)
Inductive column : Type :=
| Chips (labels : list string)
| Caption (text : string).

Definition column_of (filtered : list string) (caption : string) : column :=
  if (0 <? length filtered)%nat then Chips filtered else Caption caption.

(** The strengths and the missing-keywords columns; [None] is the TypeError
    of a list that is not an array of strings.  Both are rendered only
    under [{result && ...}]. *)
Definition strengthsColumn (st : state) : option column :=
  match ResumeUploadImproved.filteredStrengths st with
  | Some l => Some (column_of l "No strengths detected")
  | None => None
  end.

Definition weaknessesColumn (st : state) : option column :=
  match ResumeUploadImproved.filteredWeaknesses st with
  | Some l => Some (column_of l "No missing keywords detected")
  | None => None
  end.

(** [Math.max(0, Math.min(100, v))], the value of the ATS bar. *)
Definition bar (v : num) : num := Math_max (Fin 0) (Math_min (Fin 100) v).

(** An event handler is called with the state of the last render. *)
Definition dispatch (handler : state -> proc) (w : world) : world * suspended :=
  exec (handler (ui w)) w.

(** A pending request settles. *)
Definition settle (s : suspended) (o : outcome) (w : world) : world :=
  (exec (on_settled s o) w).1.

(** A pending clipboard write settles. *)
Definition written (s : suspended) (ok : bool) (w : world) : world :=
  (exec (on_written s ok) w).1.

(** A chip is clicked and the clipboard write settles at once. *)
Definition copy (text : string) (ok : bool) (w : world) : world :=
  let '(w1, s) := exec (ResumeUploadImproved.copyToClipboard text) w in
  written s ok w1.

(** The form is submitted and the request settles at once. *)
Definition submit (upload_url : string) (o : outcome) (w : world) : world :=
  let '(w1, s) := dispatch (Component.handleSubmit upload_url) w in
  settle s o w1.

(** An export whose request, if one is issued, settles with [o]. *)
Definition export_and_settle (VITE_API_URL : string) (st : state) (o : outcome)
    : state :=
  let '(st1, _, s) :=
    run (ResumeUploadImproved.handleDownloadPDF VITE_API_URL st) st in
  state_after (on_settled s o) st1.

(** A submit of the draft whose request settles with [o]. *)
Definition draft_submit_and_settle (st : state) (o : outcome) : state :=
  let '(st1, _, s) := run (ResumeUploadDraft.handleSubmit st) st in
  state_after (on_settled s o) st1.

End View.

(** ** Text beyond Latin-1: the Greek sigma *)

Module Wide.
Import JS.

(** A code unit of a wider alphabet: the units below 256 and the three
    Greek sigmas, U+03A3, U+03C3 and U+03C2.  Capital sigma is the one
    letter whose lower case depends on its place in the string. *)
Inductive code : Type :=
| L1 (c : ascii)
| CapitalSigma
| SmallSigma
| FinalSigma.

Definition text : Type := list code.

Definition code_eqb (a b : code) : bool :=
  match a, b with
  | L1 x, L1 y => Ascii.eqb x y
  | CapitalSigma, CapitalSigma => true
  | SmallSigma, SmallSigma => true
  | FinalSigma, FinalSigma => true
  | _, _ => false
  end.

(** A string of units below 256 as a text. *)
Definition of_string (s : string) : text := map L1 (String.list_ascii_of_string s).

(** The Unicode property Cased: A-Z, a-z, U+00AA, U+00B5, U+00BA,
    U+00C0..U+00D6, U+00D8..U+00F6, U+00F8..U+00FF, and the sigmas. *)
Definition cased (u : code) : bool :=
  match u with
  | L1 c =>
      let n := N_of_ascii c in
      ((65 <=? n) && (n <=? 90) || (97 <=? n) && (n <=? 122)
       || (n =? 170) || (n =? 181) || (n =? 186)
       || (192 <=? n) && (n <=? 214) || (216 <=? n) && (n <=? 246)
       || (248 <=? n))%N
  | _ => true
  end.

(** The Unicode property Case_Ignorable below 256: apostrophe, full stop,
    colon, circumflex, grave, diaeresis, soft hyphen, macron, acute, middle
    dot and cedilla. *)
Definition case_ignorable (u : code) : bool :=
  match u with
  | L1 c =>
      let n := N_of_ascii c in
      ((n =? 39) || (n =? 46) || (n =? 58) || (n =? 94) || (n =? 96)
       || (n =? 168) || (n =? 173) || (n =? 175) || (n =? 180)
       || (n =? 183) || (n =? 184))%N
  | _ => false
  end.

(** The next unit that is not case-ignorable exists and is cased. *)
Fixpoint cased_next (s : text) : bool :=
  match s with
  | [] => false
  | u :: rest => if case_ignorable u then cased_next rest else cased u
  end.

(** Lower case of one unit between what comes before it (nearest unit
    first) and what comes after it.  A capital sigma becomes the final
    sigma when a cased letter comes before it and none after it (the
    Final_Sigma condition), and the small sigma otherwise. *)
Definition lower_code (before : text) (u : code) (after : text) : code :=
  match u with
  | L1 c => L1 (lower_unit c)
  | CapitalSigma =>
      if cased_next before && negb (cased_next after) then FinalSigma
      else SmallSigma
  | SmallSigma => SmallSigma
  | FinalSigma => FinalSigma
  end.

Fixpoint lower_from (before s : text) : text :=
  match s with
  | [] => []
  | u :: rest => lower_code before u rest :: lower_from (u :: before) rest
  end.

(** [String.prototype.toLowerCase] on this alphabet. *)
Definition toLowerCase (s : text) : text := lower_from [] s.

Fixpoint startsWith (s q : text) : bool :=
  match q, s with
  | [], _ => true
  | _ :: _, [] => false
  | b :: q', a :: s' => if code_eqb a b then startsWith s' q' else false
  end.

(** [s.includes(q)]. *)
Fixpoint includes (s q : text) : bool :=
  startsWith s q ||
  match s with
  | [] => false
  | _ :: s' => includes s' q
  end.

(** The callback and the filter of the component, on this alphabet. *)
Definition matches (query s : text) : bool :=
  includes (toLowerCase s) (toLowerCase query).

Definition filter (items : list text) (query : text) : list text :=
  Array_filter (matches query) items.

(** The two filter statements of a render, with the arrays in a store:
    [strengths.filter(..)] then [weaknesses.filter(..)].  The result is the
    two new arrays and the store after the render; [None] when one of the
    two sources is not an array of the store. *)
Definition filteredLists (h : gmap loc (list text)) (strengths weaknesses : loc)
    (strengthsFilter weaknessesFilter : text)
    : option (loc * loc * gmap loc (list text)) :=
  match Array_filter_at (matches strengthsFilter) strengths h with
  | None => None
  | Some (filteredStrengths, h1) =>
      match Array_filter_at (matches weaknessesFilter) weaknesses h1 with
      | None => None
      | Some (filteredWeaknesses, h2) =>
          Some (filteredStrengths, filteredWeaknesses, h2)
      end
  end.

End Wide.

(** ** Letters and their case, as the properties read them *)

Module Letters.

Definition capitals : string := "ABCDEFGHIJKLMNOPQRSTUVWXYZ".
Definition smalls : string := "abcdefghijklmnopqrstuvwxyz".

(** The capital letters U+00C0..U+00DE; U+00D7 is the multiplication
    sign. *)
Definition accented_capitals : list N :=
  [192; 193; 194; 195; 196; 197; 198; 199; 200; 201; 202; 203; 204; 205;
   206; 207; 208; 209; 210; 211; 212; 213; 214; 216; 217; 218; 219; 220;
   221; 222]%N.

(** Every capital letter with its small letter. *)
Definition letter_pairs : list (ascii * ascii) :=
  (combine (String.list_ascii_of_string capitals) (String.list_ascii_of_string smalls)
   ++ map (fun n => (ascii_of_N n, ascii_of_N (n + 32))) accented_capitals)%list.

Definition paired (a b : ascii) : bool :=
  existsb (fun p => Ascii.eqb (fst p) a && Ascii.eqb (snd p) b) letter_pairs.

(** The same letter, whatever the case. *)
Definition same_letter (a b : ascii) : bool :=
  Ascii.eqb a b || paired a b || paired b a.

(** The same text, whatever the case. *)
Fixpoint same_text (t q : string) : bool :=
  match t, q with
  | EmptyString, EmptyString => true
  | String a t', String b q' => same_letter a b && same_text t' q'
  | _, _ => false
  end.

(** [query] occurs in [s], whatever the case of the letters. *)
Definition contains_ignoring_case (query s : string) : Prop :=
  exists pre t post, s = pre ++ t ++ post /\ same_text t query = true.

(** Every unit below 256. *)
Definition all_units : list ascii := map ascii_of_nat (seq 0 256).

End Letters.

(** ** The runs of the page *)

Module Reach.
Import JS Http React Component.











End Reach.

(** ** Properties *)

Import JS Http React Component Spec.

(** *** Numbers *)

Lemma Qle_bool_false (x y : Q) : Qle_bool x y = false <-> (y < x)%Q.
Proof.
  split; intros H.
  - apply Qnot_le_lt. intros Hle. apply Qle_bool_iff in Hle. congruence.
  - destruct (Qle_bool x y) eqn:E; [|reflexivity].
    apply Qle_bool_iff in E. exfalso. apply (Qlt_not_le _ _ H E).
Qed.

Lemma num_ge_Fin (q b : Q) : num_ge (Fin q) (Fin b) = true <-> (b <= q)%Q.
Proof. unfold num_ge, num_le. apply Qle_bool_iff. Qed.

Lemma num_ge_Fin_false (q b : Q) : num_ge (Fin q) (Fin b) = false <-> (q < b)%Q.
Proof. unfold num_ge, num_le. apply Qle_bool_false. Qed.

(** NaN fails every comparison, so it falls through to the last tier. *)
Lemma getScoreColor_NaN : getScoreColor NaN = "error".
Proof. reflexivity. Qed.

(** The pills use the same tiers as the bar. *)
Lemma getColor_getScoreColor (v : num) :
  ResumeUploadImproved.getColor v = getScoreColor v.
Proof. reflexivity. Qed.

Lemma getScoreColor_Fin (q : Q) :
  (getScoreColor (Fin q) = "success" <-> (80 <= q)%Q) /\
  (getScoreColor (Fin q) = "info" <-> (60 <= q)%Q /\ (q < 80)%Q) /\
  (getScoreColor (Fin q) = "warning" <-> (40 <= q)%Q /\ (q < 60)%Q) /\
  (getScoreColor (Fin q) = "error" <-> (q < 40)%Q).
Proof.
  unfold getScoreColor.
  destruct (num_ge (Fin q) (Fin 80)) eqn:E80.
  { apply num_ge_Fin in E80.
    repeat split; intros; try discriminate; try assumption;
      exfalso; lra. }
  apply num_ge_Fin_false in E80.
  destruct (num_ge (Fin q) (Fin 60)) eqn:E60.
  { apply num_ge_Fin in E60.
    repeat split; intros; try discriminate; try assumption;
      exfalso; lra. }
  apply num_ge_Fin_false in E60.
  destruct (num_ge (Fin q) (Fin 40)) eqn:E40.
  { apply num_ge_Fin in E40.
    repeat split; intros; try discriminate; try assumption;
      exfalso; lra. }
  apply num_ge_Fin_false in E40.
  repeat split; intros; try discriminate; try assumption;
    exfalso; lra.
Qed.

(** C3. For every score [v] that is a number, [getScoreColor v] is
    ["success"] exactly when [v >= 80], ["info"] exactly when
    [60 <= v < 80], ["warning"] exactly when [40 <= v < 60] and ["error"]
    exactly when [v < 40]; the boundary scores 0, 40, 60, 80 and 100 give
    ["error"], ["warning"], ["info"], ["success"] and ["success"]. *)
Theorem getScoreColor_tiers (v : num) (Hnum : v <> NaN) :
  (getScoreColor v = "success" <-> at_least v 80) /\
  (getScoreColor v = "info" <-> at_least v 60 /\ below v 80) /\
  (getScoreColor v = "warning" <-> at_least v 40 /\ below v 60) /\
  (getScoreColor v = "error" <-> below v 40) /\
  getScoreColor (Fin 0) = "error" /\
  getScoreColor (Fin 40) = "warning" /\
  getScoreColor (Fin 60) = "info" /\
  getScoreColor (Fin 80) = "success" /\
  getScoreColor (Fin 100) = "success".
Proof.
  assert (Hb : getScoreColor (Fin 0) = "error" /\
               getScoreColor (Fin 40) = "warning" /\
               getScoreColor (Fin 60) = "info" /\
               getScoreColor (Fin 80) = "success" /\
               getScoreColor (Fin 100) = "success")
    by (repeat split; reflexivity).
  destruct v as [| | |q].
  - congruence.
  - cbn. repeat split; intros; try discriminate; tauto.
  - cbn. repeat split; intros; try discriminate; tauto.
  - destruct (getScoreColor_Fin q) as (H1 & H2 & H3 & H4). cbn [at_least below].
    repeat split; first [apply H1 | apply H2 | apply H3 | apply H4 | apply Hb];
      assumption.
Qed.

Lemma getScoreColor_tiers_witness :
  Fin 85 <> NaN /\ (getScoreColor (Fin 85) = "success" <-> at_least (Fin 85) 80).
Proof.
  split; [discriminate|].
  apply (getScoreColor_tiers (Fin 85)). discriminate.
Defined.

(** *** Strings and the list filter *)

Lemma startsWith_spec (s q : string) :
  startsWith s q = true <-> exists post, s = q ++ post.
Proof.
  revert s. induction q as [|b q IH]; intros s.
  - destruct s; cbn; split; eauto.
  - destruct s as [|a s]; cbn.
    + split; [discriminate|]. intros [post H]. discriminate.
    + destruct (Ascii.eqb_spec a b) as [->|Hne].
      * rewrite IH. split; intros [post H]; exists post.
        -- by rewrite H.
        -- by injection H.
      * split; [discriminate|]. intros [post H]. injection H. congruence.
Qed.

Lemma includes_spec (s q : string) :
  includes s q = true <-> exists pre post, s = pre ++ q ++ post.
Proof.
  induction s as [|a s IH]; cbn [includes].
  - rewrite orb_false_r, startsWith_spec. split.
    + intros [post H]. exists "", post. exact H.
    + intros (pre & post & H). destruct pre; [eauto|discriminate].
  - rewrite orb_true_iff, startsWith_spec, IH. split.
    + intros [[post H]|(pre & post & H)].
      * exists "", post. exact H.
      * exists (String a pre), post. cbn. by rewrite H.
    + intros (pre & post & H). destruct pre as [|c pre].
      * left. exists post. exact H.
      * right. injection H as _ H. eauto.
Qed.

Lemma includes_empty (s : string) : includes s "" = true.
Proof. destruct s; reflexivity. Qed.

Lemma matches_spec (query s : string) :
  ResumeUploadImproved.matches query s = true <-> ci_substring query s.
Proof. apply includes_spec. Qed.

Section ArrayFilter.
Context {A : Type} (keep : A -> bool).

Lemma Array_filter_kept (xs : list A) :
  kept (fun x => keep x = true) xs (Array_filter keep xs).
Proof.
  induction xs as [|x xs IH]; cbn.
  - constructor.
  - destruct (keep x) eqn:E; constructor; congruence.
Qed.

Lemma Array_filter_sublist (xs : list A) :
  Array_filter keep xs `sublist_of` xs.
Proof.
  induction xs as [|x xs IH]; cbn.
  - constructor.
  - destruct (keep x); by constructor.
Qed.

Lemma elem_of_Array_filter (xs : list A) (x : A) :
  x ∈ Array_filter keep xs <-> x ∈ xs /\ keep x = true.
Proof.
  induction xs as [|y xs IH]; cbn.
  - split; [intros H|intros [H _]]; by apply elem_of_nil in H.
  - destruct (keep y) eqn:E; rewrite ?elem_of_cons, IH.
    + split; [intros [->|[? ?]]; auto|intros [[->|?] ?]; auto].
    + split; [intros [? ?]; auto|intros [[->|?] ?]; [congruence|auto]].
Qed.

Lemma Array_filter_all (xs : list A) :
  (forall x, keep x = true) -> Array_filter keep xs = xs.
Proof.
  intros H. induction xs as [|x xs IH]; cbn; [done|].
  by rewrite H, IH.
Qed.

(** The array handed to [filter] is read, never written: the call returns
    a new array and leaves every array of the store as it was. *)
Lemma Array_filter_at_fresh (a : loc) (xs : list A) (h : gmap loc (list A)) :
  h !! a = Some xs ->
  exists r, Array_filter_at keep a h = Some (r, <[r := Array_filter keep xs]> h)
            /\ h !! r = None.
Proof.
  intros Ha. unfold Array_filter_at. rewrite Ha.
  eexists. split; [reflexivity|].
  apply not_elem_of_dom. apply is_fresh.
Qed.

End ArrayFilter.

(** Only one list can be the outcome of keeping the elements that satisfy
    a property. *)
Lemma kept_functional {A : Type} (P : A -> Prop) (xs out1 out2 : list A) :
  kept P xs out1 -> kept P xs out2 -> out1 = out2.
Proof.
  intros H1. revert out2.
  induction H1 as [|x xs out1 Hx _ IH|x xs out1 Hx _ IH]; intros out2 H2;
    inversion H2; subst; try contradiction; auto.
  f_equal. auto.
Qed.

Lemma kept_iff {A : Type} (P Q : A -> Prop) (xs out : list A) :
  (forall x, P x <-> Q x) -> kept P xs out -> kept Q xs out.
Proof.
  intros HPQ. induction 1; constructor; auto; rewrite <- HPQ; auto.
Qed.

(** The example of the specification: the filter ignores case. *)
Example filter_Teamwork :
  ResumeUploadImproved.filter ["Teamwork"] "team" = ["Teamwork"].
Proof. reflexivity. Qed.

(** [filteredStrengths] is [filter] applied to the strengths of the result
    and the strengths query. *)
Lemma filteredStrengths_filter (st : state) (xs : list value) (l : list string) :
  opt_member (result st) "strengths" = VArr xs ->
  strings_of xs = Some l ->
  ResumeUploadImproved.filteredStrengths st
  = Some (ResumeUploadImproved.filter l (strengthsFilter st)).
Proof.
  intros Hs Hl. unfold ResumeUploadImproved.filteredStrengths,
    ResumeUploadImproved.strengths, ResumeUploadImproved.filtered, or_else.
  rewrite Hs. cbn. by rewrite Hl.
Qed.

(** *** Trimming *)

Lemma trimStart_empty (s : string) : trimStart s = "" <-> blank s = true.
Proof.
  induction s as [|c s IH]; cbn; [done|].
  destruct (is_white_space c); cbn; [exact IH|].
  split; discriminate.
Qed.

Lemma trimStart_blank (s : string) : blank (trimStart s) = true -> trimStart s = "".
Proof.
  induction s as [|c s IH]; cbn; [done|].
  destruct (is_white_space c) eqn:E; [exact IH|].
  cbn. rewrite E. discriminate.
Qed.

Lemma blank_rev_app (s acc : string) :
  blank (String.rev_app s acc) = blank s && blank acc.
Proof.
  revert acc. induction s as [|c s IH]; intros acc; cbn; [done|].
  rewrite IH. cbn. destruct (is_white_space c), (blank s); reflexivity.
Qed.

Lemma rev_app_empty (s acc : string) :
  String.rev_app s acc = "" -> s = "" /\ acc = "".
Proof.
  revert acc. induction s as [|c s IH]; intros acc; cbn; [done|].
  intros H. apply IH in H as [_ H]. discriminate.
Qed.

(** [trim] leaves nothing exactly of the strings made of white space. *)
Lemma trim_empty (s : string) : trim s = "" <-> blank s = true.
Proof.
  unfold trim, trimEnd, String.rev. split.
  - intros H. apply rev_app_empty in H as [H _].
    apply trimStart_empty in H. rewrite blank_rev_app, andb_true_r in H.
    apply trimStart_blank in H. by apply trimStart_empty.
  - intros H. apply trimStart_empty in H. rewrite H. reflexivity.
Qed.

(** *** Submission *)

Lemma run_handleSubmit_no_file (upload_url : string) (st : state) :
  resume st = None ->
  run (Component.handleSubmit upload_url st) st
  = (set_error (VStr msg_no_resume) st, [PreventDefault], Finished).
Proof. intros H. unfold Component.handleSubmit. rewrite H. reflexivity. Qed.

(** With a file chosen, the handler runs up to the request: the loading
    flag is raised, both messages and the previous result are cleared. *)
Lemma run_handleSubmit_file (upload_url : string) (st : state) (file : File) :
  resume st = Some file ->
  exists k,
    run (Component.handleSubmit upload_url st) st
    = (set_success "" (set_result VNull (set_error (VStr "") (set_loading true st))),
       [PreventDefault],
       OnPost {| url := upload_url;
                 data := Multipart (formData file (jobDescription st));
                 options := {| headers := [("Content-Type", "multipart/form-data")];
                               responseType := None |} |} k)
    /\ (forall res st',
          run (k (Fulfilled res)) st'
          = (set_loading false (set_success msg_evaluated (set_result (rdata res) st')),
             [], Finished))
    /\ (forall err st',
          run (k (Rejected err)) st'
          = (set_loading false (set_error (errorMessage err) st'),
             [ConsoleError err], Finished)).
Proof.
  intros H. unfold Component.handleSubmit. rewrite H.
  eexists. split; [reflexivity|]. split; reflexivity.
Qed.

Lemma submit_and_settle_rejected (upload_url : string) (st : state)
    (file : File) (err : AxiosError) :
  resume st = Some file ->
  submit_and_settle upload_url st (Rejected err)
  = set_loading false (set_error (errorMessage err)
      (set_success "" (set_result VNull (set_error (VStr "") (set_loading true st))))).
Proof.
  intros H. unfold submit_and_settle, Component.handleSubmit. rewrite H.
  reflexivity.
Qed.

Lemma submit_and_settle_fulfilled (upload_url : string) (st : state)
    (file : File) (res : response) :
  resume st = Some file ->
  submit_and_settle upload_url st (Fulfilled res)
  = set_loading false (set_success msg_evaluated (set_result (rdata res)
      (set_success "" (set_result VNull (set_error (VStr "") (set_loading true st)))))).
Proof.
  intros H. unfold submit_and_settle, Component.handleSubmit. rewrite H.
  reflexivity.
Qed.

Lemma submit_and_settle_no_file (upload_url : string) (st : state) (o : outcome) :
  resume st = None ->
  submit_and_settle upload_url st o = set_error (VStr msg_no_resume) st.
Proof.
  intros H. unfold submit_and_settle.
  rewrite (run_handleSubmit_no_file _ _ H). reflexivity.
Qed.

(** C7. A submit with no resume file selected stops at once: the error
    message becomes "Please upload a resume file.", no request is issued
    (the only effect is [preventDefault]), and the loading flag, the result
    and the success message are as before, whatever the network would have
    answered. *)
Theorem submit_without_resume (upload_url : string) (st : state)
    (Hnone : resume st = None) :
  run (Component.handleSubmit upload_url st) st
  = (set_error (VStr "Please upload a resume file.") st, [PreventDefault], Finished)
  /\ request_of (rest_of (Component.handleSubmit upload_url st) st) = None
  /\ error (state_after (Component.handleSubmit upload_url st) st)
     = VStr "Please upload a resume file."
  /\ loading (state_after (Component.handleSubmit upload_url st) st) = loading st
  /\ result (state_after (Component.handleSubmit upload_url st) st) = result st
  /\ success (state_after (Component.handleSubmit upload_url st) st) = success st
  /\ (forall o, submit_and_settle upload_url st o
                = set_error (VStr "Please upload a resume file.") st).
Proof.
  pose proof (run_handleSubmit_no_file upload_url st Hnone) as Hrun.
  unfold request_of, rest_of, state_after. rewrite Hrun.
  repeat split. intros o. by apply submit_and_settle_no_file.
Qed.

Lemma submit_without_resume_witness :
  resume initial = None /\
  run (ResumeUpload.handleSubmit initial) initial
  = (set_error (VStr "Please upload a resume file.") initial,
     [PreventDefault], Finished).
Proof.
  split; [reflexivity|].
  apply (submit_without_resume ResumeUpload.upload_url initial). reflexivity.
Defined.

Lemma formData_blank (file : File) (jd : string) :
  trim jd = "" -> formData file jd = [("resume", EFile file)].
Proof. intros H. unfold formData. rewrite H. reflexivity. Qed.

Lemma formData_text (file : File) (jd : string) :
  trim jd <> "" ->
  formData file jd = [("resume", EFile file); ("job_description", EText jd)].
Proof.
  intros H. unfold formData, truthy.
  destruct (String.eqb_spec (trim jd) ""); [contradiction|reflexivity].
Qed.

(** C6. A submit with a resume file issues one request whose multipart
    body carries the file under [resume]; the body has no [job_description]
    field when the job description is empty after trimming, and has the
    field, holding the job description as typed, when it is not. *)
Theorem job_description_field (upload_url : string) (st : state) (file : File)
    (Hfile : resume st = Some file) :
  (exists req, request_of (rest_of (Component.handleSubmit upload_url st) st)
               = Some req
               /\ data req = Multipart (formData file (jobDescription st)))
  /\ Http.get (formData file (jobDescription st)) "resume" = Some (EFile file)
  /\ (trim (jobDescription st) = "" ->
      formData file (jobDescription st) = [("resume", EFile file)]
      /\ has (formData file (jobDescription st)) "job_description" = false)
  /\ (trim (jobDescription st) <> "" ->
      formData file (jobDescription st)
      = [("resume", EFile file); ("job_description", EText (jobDescription st))]
      /\ has (formData file (jobDescription st)) "job_description" = true).
Proof.
  destruct (run_handleSubmit_file upload_url st file Hfile) as (k & Hrun & _).
  split.
  - unfold rest_of. rewrite Hrun. cbn. eauto.
  - split; [unfold formData; destruct (truthy _); reflexivity|].
    split; intros H.
    + rewrite (formData_blank _ _ H). split; reflexivity.
    + rewrite (formData_text _ _ H). split; reflexivity.
Qed.

Lemma job_description_field_witness :
  (resume Sample.with_blank_job = Some Sample.cv
   /\ trim (jobDescription Sample.with_blank_job) = ""
   /\ has (formData Sample.cv (jobDescription Sample.with_blank_job))
        "job_description" = false)
  /\ (resume Sample.with_job = Some Sample.cv
      /\ trim (jobDescription Sample.with_job) <> ""
      /\ has (formData Sample.cv (jobDescription Sample.with_job))
           "job_description" = true).
Proof.
  split.
  - split; [reflexivity|]. split; [reflexivity|].
    apply (job_description_field ResumeUpload.upload_url Sample.with_blank_job
             Sample.cv eq_refl).
    reflexivity.
  - split; [reflexivity|]. split; [discriminate|].
    apply (job_description_field ResumeUpload.upload_url Sample.with_job
             Sample.cv eq_refl).
    discriminate.
Defined.

(** *** Failed submissions *)

Lemma msg_status_head (code : N) :
  exists rest, msg_status code = String "S" rest.
Proof. unfold msg_status. cbn [String.append]. eauto. Qed.

Lemma msg_status_not_no_response (code : N) : msg_no_response <> msg_status code.
Proof.
  destruct (msg_status_head code) as [rest ->]. unfold msg_no_response.
  discriminate.
Qed.

Lemma msg_status_truthy (code : N) : truthy (VStr (msg_status code)) = true.
Proof. destruct (msg_status_head code) as [rest ->]. reflexivity. Qed.

Lemma errorMessage_falsy (err : AxiosError) (r : response) :
  eresponse err = Some r ->
  truthy (opt_member (rdata r) "error") = false ->
  errorMessage err = VStr (msg_status (status r)).
Proof. intros Hr Hf. unfold errorMessage, or_else. by rewrite Hr, Hf. Qed.

Lemma errorMessage_truthy (err : AxiosError) (r : response) :
  eresponse err = Some r ->
  truthy (opt_member (rdata r) "error") = true ->
  errorMessage err = opt_member (rdata r) "error".
Proof. intros Hr Hf. unfold errorMessage, or_else. by rewrite Hr, Hf. Qed.

(** C2 fails: with an evaluation on display and a file chosen, a submit
    that ends in a network error leaves no result. *)
Lemma failed_submit_clears_result :
  truthy (result Sample.evaluated) = true
  /\ resume Sample.evaluated = Some Sample.cv
  /\ result (submit_and_settle ResumeUpload.upload_url Sample.evaluated
               (Rejected Sample.network_down)) = VNull
  /\ result (submit_and_settle
               (ResumeUploadImproved.upload_url "http://localhost:8000")
               Sample.evaluated (Rejected Sample.network_down)) = VNull
  /\ truthy (result (submit_and_settle ResumeUpload.upload_url Sample.evaluated
                       (Rejected Sample.network_down))) = false.
Proof. repeat split. Qed.

(** C2, amended. A submit with a resume file selected clears the result
    as it starts, before the request is issued, so that after a failed
    submission (network, server or client error) no result is live; the
    previous result survives only a submit stopped by the missing-file
    check.  A successful submission installs the response body, and Reset
    clears the result. *)
Theorem submit_result (upload_url : string) (st : state) (err : AxiosError) :
  (forall file, resume st = Some file ->
     result (state_after (Component.handleSubmit upload_url st) st) = VNull
     /\ result (submit_and_settle upload_url st (Rejected err)) = VNull)
  /\ (resume st = None ->
      result (submit_and_settle upload_url st (Rejected err)) = result st)
  /\ (forall file res, resume st = Some file ->
        result (submit_and_settle upload_url st (Fulfilled res)) = rdata res)
  /\ result (state_after ResumeUploadImproved.reset st) = VNull.
Proof.
  split; [|split; [|split]].
  - intros file H. split.
    + destruct (run_handleSubmit_file upload_url st file H) as (k & Hrun & _).
      unfold state_after. by rewrite Hrun.
    + by rewrite (submit_and_settle_rejected _ _ _ _ H).
  - intros H. by rewrite (submit_and_settle_no_file _ _ _ H).
  - intros file res H. by rewrite (submit_and_settle_fulfilled _ _ _ _ H).
  - reflexivity.
Qed.

Lemma submit_result_witness :
  (resume Sample.evaluated = Some Sample.cv
   /\ result (submit_and_settle ResumeUpload.upload_url Sample.evaluated
                (Rejected Sample.corrupt_file)) = VNull)
  /\ (resume (set_resume None Sample.evaluated) = None
      /\ result (submit_and_settle ResumeUpload.upload_url
                   (set_resume None Sample.evaluated)
                   (Rejected Sample.corrupt_file)) = Sample.good_match).
Proof.
  split.
  - split; [reflexivity|].
    apply (submit_result ResumeUpload.upload_url Sample.evaluated
             Sample.corrupt_file) with (file := Sample.cv).
    reflexivity.
  - split; [reflexivity|].
    apply (submit_result ResumeUpload.upload_url
             (set_resume None Sample.evaluated) Sample.corrupt_file).
    reflexivity.
Defined.

(** C4. A failed submission leaves exactly one message, in the error
    slot, the success slot being empty.  It is chosen in this order: with a
    response, the error string of the response body when it holds one that
    is not empty, and the message built from the status code when the body
    has no error field; with no response but a request, the fixed
    no-response message, which is never a status-code message; otherwise
    "Error: " followed by the description of the exception. *)
Theorem failed_submit_message (upload_url : string) (st : state) (file : File)
    (err : AxiosError) (Hfile : resume st = Some file) :
  error (submit_and_settle upload_url st (Rejected err)) = errorMessage err
  /\ success (submit_and_settle upload_url st (Rejected err)) = ""
  /\ submit_effects upload_url st (Rejected err) = [PreventDefault; ConsoleError err]
  /\ (forall r s, eresponse err = Some r ->
        opt_member (rdata r) "error" = VStr s -> s <> "" ->
        errorMessage err = VStr s)
  /\ (forall r, eresponse err = Some r ->
        opt_member (rdata r) "error" = VUndefined ->
        errorMessage err
        = VStr ("Server returned " ++ pretty (status r)
                ++ ". Please check your resume and try again."))
  /\ (eresponse err = None -> erequest err = true ->
        errorMessage err
        = VStr "No response from the server. Please ensure the backend is running and reachable."
        /\ forall code, errorMessage err <> VStr (msg_status code))
  /\ (eresponse err = None -> erequest err = false ->
        errorMessage err = VStr ("Error: " ++ emessage err)).
Proof.
  rewrite (submit_and_settle_rejected _ _ _ _ Hfile).
  split; [reflexivity|]. split; [reflexivity|]. split.
  { unfold submit_effects, Component.handleSubmit. rewrite Hfile. reflexivity. }
  split.
  { intros r s Hr Hs Hne. rewrite (errorMessage_truthy _ _ Hr); [exact Hs|].
    rewrite Hs. cbn. by destruct (String.eqb_spec s ""). }
  split.
  { intros r Hr Hu. apply (errorMessage_falsy _ _ Hr). by rewrite Hu. }
  split.
  - intros Hr Hq. unfold errorMessage. rewrite Hr, Hq. split; [reflexivity|].
    intros code Heq. apply (msg_status_not_no_response code). congruence.
  - intros Hr Hq. unfold errorMessage. by rewrite Hr, Hq.
Qed.

Lemma failed_submit_message_witness :
  resume Sample.chosen = Some Sample.cv
  /\ error (submit_and_settle ResumeUpload.upload_url Sample.chosen
              (Rejected Sample.corrupt_file)) = VStr "corrupt file"
  /\ error (submit_and_settle ResumeUpload.upload_url Sample.chosen
              (Rejected Sample.network_down))
     = VStr "No response from the server. Please ensure the backend is running and reachable."
  /\ error (submit_and_settle ResumeUpload.upload_url Sample.chosen
              (Rejected Sample.bad_setup)) = VStr "Error: Invalid URL".
Proof.
  split; [reflexivity|].
  split; [|split].
  - destruct (failed_submit_message ResumeUpload.upload_url Sample.chosen
                Sample.cv Sample.corrupt_file eq_refl) as (He & _ & _ & Hs & _).
    rewrite He.
    apply (Hs {| status := 500; rdata := VObj [("error", VStr "corrupt file")] |});
      [reflexivity|reflexivity|discriminate].
  - destruct (failed_submit_message ResumeUpload.upload_url Sample.chosen
                Sample.cv Sample.network_down eq_refl)
      as (He & _ & _ & _ & _ & Hn & _).
    rewrite He. apply Hn; reflexivity.
  - destruct (failed_submit_message ResumeUpload.upload_url Sample.chosen
                Sample.cv Sample.bad_setup eq_refl)
      as (He & _ & _ & _ & _ & _ & Hc).
    rewrite He. apply Hc; reflexivity.
Defined.

(** C10. When the response body of a failed submission has an error field
    that is the empty string, or any other falsy value, the message on
    display is the one built from the status code: it is not that value,
    and it is not empty. *)
Theorem falsy_error_field_falls_back (upload_url : string) (st : state)
    (file : File) (err : AxiosError) (r : response)
    (Hfile : resume st = Some file)
    (Hresponse : eresponse err = Some r)
    (Hfalsy : truthy (opt_member (rdata r) "error") = false) :
  error (submit_and_settle upload_url st (Rejected err))
  = VStr ("Server returned " ++ pretty (status r)
          ++ ". Please check your resume and try again.")
  /\ error (submit_and_settle upload_url st (Rejected err))
     <> opt_member (rdata r) "error"
  /\ error (submit_and_settle upload_url st (Rejected err)) <> VStr "".
Proof.
  rewrite (submit_and_settle_rejected _ _ _ _ Hfile). cbn [error set_loading set_error].
  rewrite (errorMessage_falsy _ _ Hresponse Hfalsy).
  split; [reflexivity|]. split.
  - intros Heq. rewrite <- Heq, msg_status_truthy in Hfalsy. discriminate.
  - intros Heq. pose proof (msg_status_truthy (status r)) as Ht.
    rewrite Heq in Ht. discriminate.
Qed.

Lemma falsy_error_field_falls_back_witness :
  resume Sample.chosen = Some Sample.cv
  /\ opt_member (VObj [("error", VStr "")]) "error" = VStr ""
  /\ error (submit_and_settle ResumeUpload.upload_url Sample.chosen
              (Rejected Sample.empty_error))
     = VStr "Server returned 422. Please check your resume and try again.".
Proof.
  split; [reflexivity|]. split; [reflexivity|].
  apply (falsy_error_field_falls_back ResumeUpload.upload_url Sample.chosen
           Sample.cv Sample.empty_error
           {| status := 422; rdata := VObj [("error", VStr "")] |});
    reflexivity.
Defined.

(** *** Export *)

(** C8 fails on the wording of the message: with no result, the message
    set is "No feedback available to export." *)
Lemma export_message_text :
  truthy (result initial) = false
  /\ error (state_after
              (ResumeUploadImproved.handleDownloadPDF "http://localhost:8000" initial)
              initial)
     = VStr "No feedback available to export."
  /\ error (state_after
              (ResumeUploadImproved.handleDownloadPDF "http://localhost:8000" initial)
              initial)
     <> VStr "no feedback available to export".
Proof. split; [reflexivity|]. split; [reflexivity|discriminate]. Qed.

(** C8, amended. With no live result, [handleDownloadPDF] sets the error
    message "No feedback available to export." and issues no request.  With
    a live result it posts the whole result as JSON to the export address,
    asking for a blob, and saves the body of the answer under the file name
    resume_feedback.pdf; a failed request sets the download-failed error. *)
Theorem export_pdf (VITE_API_URL : string) (st : state) :
  (truthy (result st) = false ->
     run (ResumeUploadImproved.handleDownloadPDF VITE_API_URL st) st
     = (set_error (VStr "No feedback available to export.") st, [], Finished))
  /\ (truthy (result st) = true ->
      exists k,
        run (ResumeUploadImproved.handleDownloadPDF VITE_API_URL st) st
        = (st, [],
           OnPost {| url := VITE_API_URL ++ "/api/download_feedback_pdf";
                     data := Json (result st);
                     options := {| headers := []; responseType := Some "blob" |} |}
                  k)
        /\ (forall response st',
              run (k (Fulfilled response)) st'
              = (st', [SaveLink "resume_feedback.pdf" [rdata response]], Finished))
        /\ (forall err st',
              run (k (Rejected err)) st'
              = (set_error (VStr "Failed to download PDF. Please try again.") st',
                 [ConsoleError err], Finished))).
Proof.
  unfold ResumeUploadImproved.handleDownloadPDF. split; intros H; rewrite H.
  - reflexivity.
  - eexists. split; [reflexivity|]. split; reflexivity.
Qed.

Lemma export_pdf_witness :
  (truthy (result initial) = false
   /\ rest_of (ResumeUploadImproved.handleDownloadPDF "" initial) initial = Finished)
  /\ (truthy (result Sample.evaluated) = true
      /\ exists req,
           request_of (rest_of (ResumeUploadImproved.handleDownloadPDF "" Sample.evaluated)
                         Sample.evaluated) = Some req
           /\ data req = Json Sample.good_match).
Proof.
  split.
  - split; [reflexivity|].
    unfold rest_of.
    rewrite (proj1 (export_pdf "" initial) eq_refl). reflexivity.
  - split; [reflexivity|].
    destruct (proj2 (export_pdf "" Sample.evaluated) eq_refl) as (k & Hrun & _).
    unfold rest_of. rewrite Hrun. eexists. split; reflexivity.
Defined.

(** *** Clipboard and timers *)



Lemma fire_due_single (t due : N) (cb : state -> state) (st : state) :
  fire_due t [(due, cb)] st
  = if (due <=? t)%N then (cb st, []) else (st, [(due, cb)]).
Proof. cbn. by destruct (due <=? t)%N. Qed.

(** *** Display of the metrics *)

Section Display.
Variable StringToNumber : string -> num.
Variable ObjectToNumber : value -> num.

Local Abbreviation improved_scores :=
  (ResumeUploadImproved.scores StringToNumber ObjectToNumber).
Local Abbreviation normalized :=
  (ResumeUploadImproved.normalized StringToNumber ObjectToNumber).

(** A guarded element [{typeof x === "number" && (...)}]. *)
Lemma elem_of_guarded (x : value) (f : num -> node) (n : node) :
  n ∈ match x with VNum k => [f k] | _ => [] end ->
  exists k, x = VNum k /\ n = f k.
Proof.
  destruct x; intros H; try (by apply elem_of_nil in H).
  apply list_elem_of_singleton in H. eauto.
Qed.

Lemma is_number_VNum (x : value) (k : num) : x = VNum k -> is_number x = true.
Proof. by intros ->. Qed.

(** The earlier variant shows a metric only if its field is a number. *)
Lemma basic_shows_number (r : value) (m : metric) (n : node) (v : num) :
  n ∈ ResumeUpload.scores r -> ResumeUpload.shows n = Some (m, v) ->
  member r (field m) = VNum v.
Proof.
  unfold ResumeUpload.scores. rewrite !elem_of_app.
  intros [H|[H|[H|H]]] Hs; apply elem_of_guarded in H as (k & Hk & ->);
    cbn in Hs; injection Hs as <- <-; exact Hk.
Qed.

(** And it shows every metric whose field is a number. *)
Lemma basic_number_shown (r : value) (m : metric) (v : num) :
  member r (field m) = VNum v ->
  exists n, n ∈ ResumeUpload.scores r /\ ResumeUpload.shows n = Some (m, v).
Proof.
  intros H. unfold ResumeUpload.scores.
  destruct m; cbn [field] in H; rewrite H.
  - exists (AtsScore v v (getScoreColor v)). split; [|reflexivity].
    apply elem_of_app. left. apply list_elem_of_singleton. reflexivity.
  - exists (Line "Keyword Overlap: " v). split; [|reflexivity].
    apply elem_of_app. right. apply elem_of_app. left.
    apply list_elem_of_singleton. reflexivity.
  - exists (Line "Semantic Similarity: " v). split; [|reflexivity].
    do 2 (apply elem_of_app; right). apply elem_of_app. left.
    apply list_elem_of_singleton. reflexivity.
  - exists (Line "Overall Match Score: " v). split; [|reflexivity].
    do 3 (apply elem_of_app; right).
    apply list_elem_of_singleton. reflexivity.
Qed.

(** The current variant guards the ATS bar in the same way. *)
Lemma improved_ats_number (r : value) (n : node) (v : num) :
  n ∈ improved_scores r ->
  ResumeUploadImproved.shows n = Some (ats_score, v) ->
  member r "ats_score" = VNum v.
Proof.
  unfold ResumeUploadImproved.scores. rewrite elem_of_app.
  intros [H|H] Hs.
  - rewrite !elem_of_cons in H.
    destruct H as [->|[->|[->|H]]]; [discriminate..|by apply elem_of_nil in H].
  - apply elem_of_guarded in H as (k & Hk & ->).
    cbn in Hs. injection Hs as <-. exact Hk.
Qed.

(** The three pills are always there. *)
Lemma improved_pill_shown (r : value) (m : metric) :
  m <> ats_score ->
  exists n, n ∈ improved_scores r
    /\ ResumeUploadImproved.shows n
       = Some (m, normalized (nullish_or (member r (field m)) (VNum (Fin 0)))).
Proof.
  intros Hm. unfold ResumeUploadImproved.scores.
  destruct m; [contradiction|..]; cbn [field].
  - exists (ResumeUploadImproved.ScorePill StringToNumber ObjectToNumber "Keyword"
              (nullish_or (member r "keyword_overlap") (VNum (Fin 0)))).
    split; [|reflexivity]. apply elem_of_app. left. apply list_elem_of_here.
  - exists (ResumeUploadImproved.ScorePill StringToNumber ObjectToNumber "Semantic"
              (nullish_or (member r "semantic_similarity") (VNum (Fin 0)))).
    split; [|reflexivity]. apply elem_of_app. left.
    apply list_elem_of_further, list_elem_of_here.
  - exists (ResumeUploadImproved.ScorePill StringToNumber ObjectToNumber "Match"
              (nullish_or (member r "match_score") (VNum (Fin 0)))).
    split; [|reflexivity]. apply elem_of_app. left.
    do 2 apply list_elem_of_further. apply list_elem_of_here.
Qed.

Lemma normalized_absent (x : value) :
  absent x -> normalized (nullish_or x (VNum (Fin 0))) = Fin 0.
Proof. intros [-> | ->]; reflexivity. Qed.

(** C1 fails in the current variant: for the result
    [{ ats_score: 85, feedback: "Good match" }] the three other metrics,
    absent from it, are each shown as a pill reading 0. *)
Lemma absent_metric_shown_as_zero :
  truthy Sample.good_match = true
  /\ member Sample.good_match "keyword_overlap" = VUndefined
  /\ member Sample.good_match "semantic_similarity" = VUndefined
  /\ member Sample.good_match "match_score" = VUndefined
  /\ (forall S O,
        ResumeUploadImproved.results S O Sample.evaluated
        = Some [ScorePill "Keyword" (Fin 0) "error";
                ScorePill "Semantic" (Fin 0) "error";
                ScorePill "Match" (Fin 0) "error";
                AtsScore (Fin 85) (Fin 85) "success"])
  /\ ResumeUploadImproved.shows (ScorePill "Keyword" (Fin 0) "error")
     = Some (keyword_overlap, Fin 0).
Proof. repeat split. Qed.

(** C1, amended. A metric whose field is absent or not a number is left
    out by the earlier variant, whichever the metric, and by the current
    variant when the metric is the ATS score.  For the keyword, semantic and
    match metrics the current variant shows an absent field as a pill that
    reads 0. *)
Theorem metric_display (r : value) (m : metric)
    (Hmissing : is_number (member r (field m)) = false) :
  (forall n v, n ∈ ResumeUpload.scores r -> ResumeUpload.shows n <> Some (m, v))
  /\ (m = ats_score ->
      forall n v, n ∈ improved_scores r ->
                  ResumeUploadImproved.shows n <> Some (m, v))
  /\ (m <> ats_score -> absent (member r (field m)) ->
      exists n, n ∈ improved_scores r
                /\ ResumeUploadImproved.shows n = Some (m, Fin 0)).
Proof.
  split; [|split].
  - intros n v Hin Hs. apply (basic_shows_number r m n v Hin) in Hs.
    rewrite Hs in Hmissing. discriminate.
  - intros -> n v Hin Hs. apply (improved_ats_number r n v Hin) in Hs.
    cbn [field] in Hmissing. rewrite Hs in Hmissing. discriminate.
  - intros Hm Ha. destruct (improved_pill_shown r m Hm) as (n & Hin & Hs).
    exists n. split; [exact Hin|].
    rewrite Hs. by rewrite (normalized_absent _ Ha).
Qed.

End Display.

Lemma metric_display_witness :
  is_number (member Sample.good_match (field keyword_overlap)) = false
  /\ (forall n v, n ∈ ResumeUpload.scores Sample.good_match ->
                  ResumeUpload.shows n <> Some (keyword_overlap, v))
  /\ keyword_overlap <> ats_score
  /\ absent (member Sample.good_match (field keyword_overlap))
  /\ (exists n,
        n ∈ ResumeUploadImproved.scores (fun _ => NaN) (fun _ => NaN)
              Sample.good_match
        /\ ResumeUploadImproved.shows n = Some (keyword_overlap, Fin 0)).
Proof.
  split; [reflexivity|].
  split.
  - apply (metric_display (fun _ => NaN) (fun _ => NaN) Sample.good_match
             keyword_overlap).
    reflexivity.
  - split; [discriminate|]. split; [left; reflexivity|].
    apply (metric_display (fun _ => NaN) (fun _ => NaN) Sample.good_match
             keyword_overlap eq_refl); [discriminate|left; reflexivity].
Defined.

(** *** The examples of the specification *)

(** The earlier variant shows [{ ats_score: 85, feedback: "Good match" }]
    as an ATS score of 85 in the "success" colour and nothing else. *)
Example basic_good_match :
  ResumeUpload.results Sample.evaluated
  = Some [AtsScore (Fin 85) (Fin 85) "success"].
Proof. reflexivity. Qed.

(** A successful submission stores the body and the success message. *)
Example submit_good_match :
  submit_and_settle ResumeUpload.upload_url Sample.chosen
    (Fulfilled {| status := 200; rdata := Sample.good_match |})
  = Sample.evaluated.
Proof. reflexivity. Qed.

(** Status 500 with [{ error: "corrupt file" }] shows "corrupt file". *)
Example submit_corrupt_file :
  error (submit_and_settle ResumeUpload.upload_url Sample.chosen
           (Rejected Sample.corrupt_file)) = VStr "corrupt file".
Proof. reflexivity. Qed.

(** A score out of range is clamped for the bar, not for the text. *)
Example improved_out_of_range :
  ResumeUploadImproved.scores (fun _ => NaN) (fun _ => NaN)
    (VObj [("ats_score", VNum (Fin 120)); ("match_score", VNum (Fin (-3)))])
  = [ScorePill "Keyword" (Fin 0) "error"; ScorePill "Semantic" (Fin 0) "error";
     ScorePill "Match" (Fin 0) "error"; AtsScore (Fin 120) (Fin 100) "success"].
Proof. reflexivity. Qed.

(** ** Further properties of the component *)

Import View.

(** *** Clamping and tiers *)

Lemma bar_Fin (q : Q) :
  bar (Fin q)
  = if Qle_bool 100 q then Fin 100
    else if Qle_bool 0 q then Fin q else Fin 0.
Proof.
  unfold bar, Math_min, Math_max, num_le.
  destruct (Qle_bool 100 q); [reflexivity|].
  destruct (Qle_bool 0 q); reflexivity.
Qed.

Lemma bar_inject_Z (z : Z) :
  bar (Fin (inject_Z z)) = Fin (inject_Z (Z.max 0 (Z.min 100 z))).
Proof.
  rewrite bar_Fin.
  destruct (Qle_bool 100 (inject_Z z)) eqn:E100.
  - apply Qle_bool_iff in E100.
    change (inject_Z 100 <= inject_Z z)%Q in E100. rewrite <- Zle_Qle in E100.
    rewrite Z.min_l, Z.max_r by lia. reflexivity.
  - apply Qle_bool_false in E100.
    change (inject_Z z < inject_Z 100)%Q in E100. rewrite <- Zlt_Qlt in E100.
    rewrite Z.min_r by lia.
    destruct (Qle_bool 0 (inject_Z z)) eqn:E0.
    + apply Qle_bool_iff in E0.
      change (inject_Z 0 <= inject_Z z)%Q in E0. rewrite <- Zle_Qle in E0.
      rewrite Z.max_r by lia. reflexivity.
    + apply Qle_bool_false in E0.
      change (inject_Z z < inject_Z 0)%Q in E0. rewrite <- Zlt_Qlt in E0.
      rewrite Z.max_l by lia. reflexivity.
Qed.

Section Pills.
Variable StringToNumber : string -> num.
Variable ObjectToNumber : value -> num.

Local Abbreviation pill_value :=
  (ResumeUploadImproved.normalized StringToNumber ObjectToNumber).
Local Abbreviation to_number :=
  (ResumeUploadImproved.ToNumber StringToNumber ObjectToNumber).

Lemma normalized_bar (v : value) :
  pill_value v = bar (Math_round (to_number v)).
Proof. reflexivity. Qed.

(** X1. A score pill never shows a number out of range: whenever the
    value it is given converts to a number other than NaN, the pill reads a
    whole number between 0 and 100; for a finite number [q] it is
    [q + 1/2] rounded down, cut to the range. *)
Theorem pill_in_range (v : value) (Hnum : to_number v <> NaN) :
  (exists z : Z, pill_value v = Fin (inject_Z z) /\ (0 <= z <= 100)%Z)
  /\ (forall q, to_number v = Fin q ->
        pill_value v
        = Fin (inject_Z (Z.max 0 (Z.min 100 (Qfloor (q + (1 # 2))))))).
Proof.
  rewrite normalized_bar. destruct (to_number v) as [| | |q] eqn:E.
  - congruence.
  - split; [|discriminate]. exists 100%Z. split; [reflexivity|lia].
  - split; [|discriminate]. exists 0%Z. split; [reflexivity|lia].
  - cbn [Math_round]. rewrite bar_inject_Z. split.
    + eexists. split; [reflexivity|lia].
    + intros q' Hq. injection Hq as <-. reflexivity.
Qed.

(** Cutting a score to the range 0..100 never moves it to another tier. *)
Lemma getScoreColor_bar (n : num) : getScoreColor (bar n) = getScoreColor n.
Proof.
  destruct n as [| | |q]; [reflexivity..|].
  rewrite bar_Fin.
  destruct (Qle_bool 100 q) eqn:E100.
  - apply Qle_bool_iff in E100. symmetry.
    apply (getScoreColor_Fin q). lra.
  - destruct (Qle_bool 0 q) eqn:E0; [reflexivity|].
    apply Qle_bool_false in E0. symmetry.
    apply (getScoreColor_Fin q). lra.
Qed.

(** X2. The colour of a pill is the tier of the rounded score: cutting
    the score to the range never changes the colour, also when the score is
    not a number or is infinite. *)
Theorem pill_colour_is_tier_of_rounded (label : string) (v : value) :
  ResumeUploadImproved.ScorePill StringToNumber ObjectToNumber label v
  = Component.ScorePill label (pill_value v)
      (getScoreColor (Math_round (to_number v))).
Proof.
  unfold ResumeUploadImproved.ScorePill. f_equal.
  rewrite getColor_getScoreColor, normalized_bar. apply getScoreColor_bar.
Qed.

(** X3. In the current variant the ATS row of a result whose [ats_score]
    is a number other than NaN has a bar value between 0 and 100 whose tier
    is the colour of the row, while the text shows the score as received. *)
Theorem ats_row_bar (r : value) (n : num)
    (Hats : member r "ats_score" = VNum n) (Hnum : n <> NaN) :
  AtsScore n (bar n) (getScoreColor (bar n))
    ∈ ResumeUploadImproved.scores StringToNumber ObjectToNumber r
  /\ exists b, bar n = Fin b /\ (0 <= b)%Q /\ (b <= 100)%Q.
Proof.
  split.
  - unfold ResumeUploadImproved.scores. rewrite Hats, getScoreColor_bar.
    apply elem_of_app. right. apply list_elem_of_here.
  - destruct n as [| | |q]; [congruence| | |].
    + exists 100%Q. split; [reflexivity|]. split; lra.
    + exists 0%Q. split; [reflexivity|]. split; lra.
    + rewrite bar_Fin.
      destruct (Qle_bool 100 q) eqn:E100.
      { exists 100%Q. split; [reflexivity|]. split; lra. }
      apply Qle_bool_false in E100.
      destruct (Qle_bool 0 q) eqn:E0.
      * apply Qle_bool_iff in E0. exists q. split; [reflexivity|]. split; lra.
      * exists 0%Q. split; [reflexivity|]. split; lra.
Qed.

End Pills.

Lemma pill_in_range_witness :
  ResumeUploadImproved.ToNumber (fun _ => NaN) (fun _ => NaN)
    (VNum (Fin (1279 # 10))) <> NaN
  /\ ResumeUploadImproved.normalized (fun _ => NaN) (fun _ => NaN)
       (VNum (Fin (1279 # 10))) = Fin 100.
Proof.
  split; [discriminate|].
  destruct (pill_in_range (fun _ => NaN) (fun _ => NaN)
              (VNum (Fin (1279 # 10)))) as [_ H]; [discriminate|].
  rewrite (H (1279 # 10)%Q eq_refl). reflexivity.
Defined.

Lemma ats_row_bar_witness :
  member (VObj [("ats_score", VNum (Fin 120))]) "ats_score" = VNum (Fin 120)
  /\ Fin 120 <> NaN
  /\ AtsScore (Fin 120) (Fin 100) "success"
       ∈ ResumeUploadImproved.scores (fun _ => NaN) (fun _ => NaN)
           (VObj [("ats_score", VNum (Fin 120))]).
Proof.
  split; [reflexivity|]. split; [discriminate|].
  apply (ats_row_bar (fun _ => NaN) (fun _ => NaN)
           (VObj [("ats_score", VNum (Fin 120))]) (Fin 120));
    [reflexivity|discriminate].
Defined.

(** *** The life of a submission *)


(** X4. A submit with a file disables the submit button up to the
    answer, and the answer, fulfilled or rejected, enables it again in
    whatever state the component is by then. *)
Theorem submit_button_lifecycle (upload_url : string) (st : state) (file : File)
    (Hfile : resume st = Some file) :
  submitDisabled (state_after (Component.handleSubmit upload_url st) st) = true
  /\ exists req k,
       rest_of (Component.handleSubmit upload_url st) st = OnPost req k
       /\ forall o st', submitDisabled (state_after (k o) st') = false.
Proof.
  destruct (run_handleSubmit_file upload_url st file Hfile)
    as (k & Hrun & Hok & Hko).
  unfold state_after, rest_of. rewrite Hrun. split; [reflexivity|].
  eexists _, k. split; [reflexivity|].
  intros [res|err] st'; [rewrite Hok|rewrite Hko]; reflexivity.
Qed.

Lemma submit_button_lifecycle_witness :
  resume Sample.chosen = Some Sample.cv
  /\ submitDisabled
       (state_after (ResumeUpload.handleSubmit Sample.chosen) Sample.chosen)
     = true.
Proof.
  split; [reflexivity|].
  apply (submit_button_lifecycle ResumeUpload.upload_url Sample.chosen
           Sample.cv eq_refl).
Defined.



Section Lifecycle.
Variable VITE_API_URL : string.
Variable StringToNumber : string -> num.
Variable ObjectToNumber : value -> num.

(** X6. After Reset nothing is on display and nothing can be sent: no
    alert, no results panel, the export button disabled; a submit stops at
    the missing-file check and an export at the missing-result check, both
    without a request.  The job description, the two filters and the
    loading flag are left as they were. *)
Theorem after_reset (upload_url : string) (st : state) :
  let st' := state_after ResumeUploadImproved.reset st in
  alerts st' = []
  /\ ResumeUploadImproved.results StringToNumber ObjectToNumber st' = None
  /\ exportDisabled st' = true
  /\ run (Component.handleSubmit upload_url st') st'
     = (set_error (VStr "Please upload a resume file.") st',
        [PreventDefault], Finished)
  /\ run (ResumeUploadImproved.handleDownloadPDF VITE_API_URL st') st'
     = (set_error (VStr "No feedback available to export.") st', [], Finished)
  /\ jobDescription st' = jobDescription st
  /\ strengthsFilter st' = strengthsFilter st
  /\ weaknessesFilter st' = weaknessesFilter st
  /\ loading st' = loading st.
Proof. cbn zeta. repeat split. Qed.

(** X7. Reset does not cancel a pending submission: when Reset is
    pressed between the request and its answer the submit button stays
    disabled, and a fulfilled answer still installs its body as the result
    and announces success, although no file is selected any more. *)
Theorem reset_keeps_pending_submit (upload_url : string) (st : state)
    (file : File) (res : response) (Hfile : resume st = Some file) :
  exists req k,
    rest_of (Component.handleSubmit upload_url st) st = OnPost req k
    /\ let pending :=
         state_after ResumeUploadImproved.reset
           (state_after (Component.handleSubmit upload_url st) st) in
       let answered := state_after (k (Fulfilled res)) pending in
       submitDisabled pending = true
       /\ result answered = rdata res
       /\ alerts answered = [SuccessAlert "Resume evaluated successfully!"]
       /\ resume answered = None
       /\ submitDisabled answered = false.
Proof.
  destruct (run_handleSubmit_file upload_url st file Hfile)
    as (k & Hrun & Hok & _).
  unfold state_after, rest_of. rewrite Hrun.
  eexists _, k. split; [reflexivity|]. cbn zeta. rewrite Hok.
  repeat split.
Qed.

(** X8. What a fulfilled upload returns is what an export sends: when
    the body of the answer is truthy the results panel shows it, the export
    button is enabled, and [handleDownloadPDF] posts that very body. *)
Theorem upload_then_export (upload_url : string) (st : state) (file : File)
    (res : response) (Hfile : resume st = Some file)
    (Hbody : truthy (rdata res) = true) :
  let st' := submit_and_settle upload_url st (Fulfilled res) in
  ResumeUploadImproved.results StringToNumber ObjectToNumber st'
  = Some (ResumeUploadImproved.scores StringToNumber ObjectToNumber (rdata res))
  /\ exportDisabled st' = false
  /\ exists req,
       request_of (rest_of (ResumeUploadImproved.handleDownloadPDF VITE_API_URL st')
                     st') = Some req
       /\ data req = Json (rdata res).
Proof.
  cbn zeta. rewrite (submit_and_settle_fulfilled _ _ _ _ Hfile).
  unfold ResumeUploadImproved.results, exportDisabled,
    ResumeUploadImproved.handleDownloadPDF, rest_of.
  cbn [result set_loading set_success set_result]. rewrite Hbody.
  split; [reflexivity|]. split; [reflexivity|].
  eexists. split; reflexivity.
Qed.

(** X9. A fulfilled upload whose body is falsy (null, the empty string,
    0, false) announces success and shows nothing: no results panel in
    either variant, the export button disabled, and an export refused with
    the missing-result message. *)
Theorem falsy_body_shows_nothing (upload_url : string) (st : state)
    (file : File) (res : response) (Hfile : resume st = Some file)
    (Hbody : truthy (rdata res) = false) :
  let st' := submit_and_settle upload_url st (Fulfilled res) in
  alerts st' = [SuccessAlert "Resume evaluated successfully!"]
  /\ ResumeUpload.results st' = None
  /\ ResumeUploadImproved.results StringToNumber ObjectToNumber st' = None
  /\ exportDisabled st' = true
  /\ run (ResumeUploadImproved.handleDownloadPDF VITE_API_URL st') st'
     = (set_error (VStr "No feedback available to export.") st', [], Finished).
Proof.
  cbn zeta. rewrite (submit_and_settle_fulfilled _ _ _ _ Hfile).
  unfold ResumeUpload.results, ResumeUploadImproved.results, exportDisabled,
    ResumeUploadImproved.handleDownloadPDF.
  cbn [result set_loading set_success set_result]. rewrite Hbody.
  repeat split.
Qed.

End Lifecycle.

Lemma reset_keeps_pending_submit_witness :
  resume Sample.chosen = Some Sample.cv
  /\ exists req k,
       rest_of (ResumeUpload.handleSubmit Sample.chosen) Sample.chosen
       = OnPost req k
       /\ result (state_after
                    (k (Fulfilled {| status := 200; rdata := Sample.good_match |}))
                    (state_after ResumeUploadImproved.reset
                       (state_after (ResumeUpload.handleSubmit Sample.chosen)
                          Sample.chosen)))
          = Sample.good_match.
Proof.
  split; [reflexivity|].
  destruct (reset_keeps_pending_submit ResumeUpload.upload_url Sample.chosen
              Sample.cv {| status := 200; rdata := Sample.good_match |} eq_refl)
    as (req & k & Hrest & _ & Hres & _).
  exists req, k. split; [exact Hrest|exact Hres].
Defined.

Lemma upload_then_export_witness :
  resume Sample.chosen = Some Sample.cv
  /\ truthy Sample.good_match = true
  /\ exportDisabled
       (submit_and_settle ResumeUpload.upload_url Sample.chosen
          (Fulfilled {| status := 200; rdata := Sample.good_match |})) = false.
Proof.
  split; [reflexivity|]. split; [reflexivity|].
  apply (upload_then_export "" (fun _ => NaN) (fun _ => NaN)
           ResumeUpload.upload_url Sample.chosen Sample.cv
           {| status := 200; rdata := Sample.good_match |} eq_refl eq_refl).
Defined.

Lemma falsy_body_shows_nothing_witness :
  resume Sample.chosen = Some Sample.cv
  /\ truthy (VStr "") = false
  /\ ResumeUpload.results
       (submit_and_settle ResumeUpload.upload_url Sample.chosen
          (Fulfilled {| status := 200; rdata := VStr "" |})) = None.
Proof.
  split; [reflexivity|]. split; [reflexivity|].
  apply (falsy_body_shows_nothing "" (fun _ => NaN) (fun _ => NaN)
           ResumeUpload.upload_url Sample.chosen Sample.cv
           {| status := 200; rdata := VStr "" |} eq_refl eq_refl).
Defined.

(** *** Searching the strengths and the missing keywords *)

Lemma string_app_cons (x : ascii) (a b : string) :
  String x a ++ b = String x (a ++ b).
Proof. reflexivity. Qed.

Lemma string_app_assoc (a b c : string) : (a ++ b) ++ c = a ++ b ++ c.
Proof.
  induction a as [|x a IH]; [reflexivity|].
  by rewrite !string_app_cons, IH.
Qed.




Lemma toLowerCase_app (a b : string) :
  toLowerCase (a ++ b) = toLowerCase a ++ toLowerCase b.
Proof.
  induction a as [|c a IH]; [reflexivity|].
  rewrite string_app_cons. cbn [toLowerCase].
  by rewrite string_app_cons, IH.
Qed.






Lemma filter_nil_iff (items : list string) (query : string) :
  ResumeUploadImproved.filter items query = []
  <-> forall s, s ∈ items -> ~ ci_substring query s.
Proof.
  unfold ResumeUploadImproved.filter. split.
  - intros Hnil s Hin Hci.
    assert (Hs : s ∈ Array_filter (ResumeUploadImproved.matches query) items).
    { apply elem_of_Array_filter. split; [exact Hin|]. by apply matches_spec. }
    rewrite Hnil in Hs. by apply elem_of_nil in Hs.
  - intros Hno.
    destruct (Array_filter (ResumeUploadImproved.matches query) items)
      as [|x out] eqn:E; [reflexivity|].
    assert (Hx : x ∈ Array_filter (ResumeUploadImproved.matches query) items).
    { rewrite E. apply list_elem_of_here. }
    apply elem_of_Array_filter in Hx as [Hin Hm].
    apply matches_spec in Hm. destruct (Hno x Hin Hm).
Qed.





Lemma column_of_caption (l : list string) (caption : string) :
  column_of l caption = Caption caption <-> l = [].
Proof.
  unfold column_of. destruct l as [|x l]; cbn; split; try done.
Qed.

(** X13. For a result whose strengths are an array of strings the
    strengths column shows the chips of the items that match the query, in
    order, and the caption "No strengths detected" exactly when no item
    matches: the caption is the same whether the result lists no strength
    or the query excludes them all. *)
Theorem strengths_column (st : state) (xs : list value) (l : list string)
    (Hfield : opt_member (result st) "strengths" = VArr xs)
    (Hstrings : strings_of xs = Some l) :
  (strengthsColumn st = Some (Caption "No strengths detected")
   <-> forall s, s ∈ l -> ~ ci_substring (strengthsFilter st) s)
  /\ ((exists s, s ∈ l /\ ci_substring (strengthsFilter st) s) ->
      strengthsColumn st
      = Some (Chips (ResumeUploadImproved.filter l (strengthsFilter st))))
  /\ (l = [] -> strengthsColumn st = Some (Caption "No strengths detected")).
Proof.
  unfold strengthsColumn.
  rewrite (filteredStrengths_filter st xs l Hfield Hstrings).
  assert (Hcap : Some (column_of (ResumeUploadImproved.filter l (strengthsFilter st))
                         "No strengths detected")
                 = Some (Caption "No strengths detected")
                 <-> forall s, s ∈ l -> ~ ci_substring (strengthsFilter st) s).
  { rewrite <- filter_nil_iff, <- column_of_caption.
    split; [by intros [=]|by intros ->]. }
  split; [exact Hcap|]. split.
  - intros (s & Hin & Hci). unfold column_of.
    destruct (ResumeUploadImproved.filter l (strengthsFilter st)) as [|x out] eqn:E;
      [|reflexivity].
    destruct (proj1 (filter_nil_iff _ _) E s Hin Hci).
  - intros ->. reflexivity.
Qed.

Lemma strengths_column_witness :
  let st := set_strengthsFilter "java"
              (set_result (VObj [("strengths", VArr [VStr "Python"; VStr "SQL"])])
                 Sample.chosen) in
  opt_member (result st) "strengths" = VArr [VStr "Python"; VStr "SQL"]
  /\ strings_of [VStr "Python"; VStr "SQL"] = Some ["Python"; "SQL"]
  /\ strengthsColumn st = Some (Caption "No strengths detected").
Proof.
  cbn zeta. split; [reflexivity|]. split; [reflexivity|].
  apply (proj2 (proj1 (strengths_column
           (set_strengthsFilter "java"
              (set_result (VObj [("strengths", VArr [VStr "Python"; VStr "SQL"])])
                 Sample.chosen))
           [VStr "Python"; VStr "SQL"] ["Python"; "SQL"] eq_refl eq_refl))).
  intros s Hs.
  exact (proj1 (filter_nil_iff ["Python"; "SQL"] "java") eq_refl s Hs).
Defined.

(** X14. A result with no strengths (or no weaknesses) field, or with a
    falsy one, is shown with the caption of the empty column whatever the
    query is: the missing list is read as the empty list. *)
Theorem missing_lists_are_empty (st : state) :
  (truthy (opt_member (result st) "strengths") = false ->
     ResumeUploadImproved.filteredStrengths st = Some []
     /\ strengthsColumn st = Some (Caption "No strengths detected"))
  /\ (truthy (opt_member (result st) "weaknesses") = false ->
      ResumeUploadImproved.filteredWeaknesses st = Some []
      /\ weaknessesColumn st = Some (Caption "No missing keywords detected")).
Proof.
  unfold strengthsColumn, weaknessesColumn,
    ResumeUploadImproved.filteredStrengths,
    ResumeUploadImproved.filteredWeaknesses, ResumeUploadImproved.strengths,
    ResumeUploadImproved.weaknesses, or_else.
  split; intros ->; split; reflexivity.
Qed.

Lemma missing_lists_are_empty_witness :
  truthy (opt_member (result Sample.evaluated) "strengths") = false
  /\ strengthsColumn Sample.evaluated = Some (Caption "No strengths detected").
Proof.
  split; [reflexivity|].
  apply (missing_lists_are_empty Sample.evaluated). reflexivity.
Defined.

(** *** Timers and alerts *)

Lemma copy_fulfilled (text : string) (w : world) :
  ui (copy text true w) = set_success "Copied to clipboard" (ui w)
  /\ clock (copy text true w) = clock w
  /\ timers (copy text true w)
     = enqueue (clock w + 2000)%N (set_success "") (timers w).
Proof. repeat split. Qed.

Lemma copy_rejected (text : string) (w : world) :
  ui (copy text false w) = set_error (VStr "Failed to copy") (ui w)
  /\ clock (copy text false w) = clock w
  /\ timers (copy text false w) = timers w.
Proof. repeat split. Qed.

Lemma submit_on_page (upload_url : string) (o : outcome) (w : world) :
  ui (submit upload_url o w) = submit_and_settle upload_url (ui w) o
  /\ clock (submit upload_url o w) = clock w
  /\ timers (submit upload_url o w) = timers w.
Proof.
  unfold submit, dispatch, settle, exec, submit_and_settle, state_after,
    Component.handleSubmit.
  destruct (resume (ui w)); [destruct o|]; repeat split.
Qed.

Lemma advance_before (dt due : N) (cb : state -> state)
    (rest : list (N * (state -> state))) (w : world) :
  timers w = (due, cb) :: rest -> (clock w + dt < due)%N ->
  ui (advance dt w) = ui w /\ timers (advance dt w) = timers w
  /\ clock (advance dt w) = (clock w + dt)%N.
Proof.
  intros Ht Hlt. unfold advance. rewrite Ht. cbn [fire_due].
  destruct (N.leb_spec due (clock w + dt)); [lia|]. repeat split.
Qed.

Lemma advance_last (dt due : N) (cb : state -> state) (w : world) :
  timers w = [(due, cb)] -> (due <= clock w + dt)%N ->
  ui (advance dt w) = cb (ui w) /\ timers (advance dt w) = [].
Proof.
  intros Ht Hle. unfold advance. rewrite Ht. cbn [fire_due].
  destruct (N.leb_spec due (clock w + dt)); [|lia]. repeat split.
Qed.

(** X15. The timer of a copy clears whatever success message is there
    when it fires: after a successful copy, a submission answered within
    the 2000 ms announces success, and that announcement is removed as soon
    as 2000 ms have passed since the copy; the result stays. *)
Theorem copy_timer_clears_evaluation_message (text upload_url : string)
    (w : world) (file : File) (res : response) (dt1 dt2 : N)
    (Hidle : timers w = []) (Hfile : resume (ui w) = Some file)
    (Hsoon : (dt1 < 2000)%N) (Hlate : (2000 <= dt1 + dt2)%N) :
  let answered :=
    submit upload_url (Fulfilled res) (advance dt1 (copy text true w)) in
  alerts (ui answered) = [SuccessAlert "Resume evaluated successfully!"]
  /\ alerts (ui (advance dt2 answered)) = []
  /\ result (ui (advance dt2 answered)) = rdata res.
Proof.
  cbn zeta.
  destruct (copy_fulfilled text w) as (Hu1 & Hc1 & Ht1).
  rewrite Hidle in Ht1. cbn [enqueue] in Ht1.
  destruct (advance_before dt1 _ _ _ _ Ht1) as (Hu2 & Ht2 & Hc2); [lia|].
  destruct (submit_on_page upload_url (Fulfilled res)
              (advance dt1 (copy text true w))) as (Hu3 & Hc3 & Ht3).
  rewrite Ht2, Ht1 in Ht3.
  assert (Hf : resume (ui (advance dt1 (copy text true w))) = Some file)
    by (rewrite Hu2, Hu1; exact Hfile).
  rewrite (submit_and_settle_fulfilled _ _ _ _ Hf) in Hu3.
  destruct (advance_last dt2 _ _ _ Ht3) as (Hu4 & _); [lia|].
  rewrite Hu4, Hu3. repeat split.
Qed.

Lemma copy_timer_clears_evaluation_message_witness :
  timers Sample.page = [] /\ resume (ui Sample.page) = Some Sample.cv
  /\ (1500 < 2000)%N /\ (2000 <= 1500 + 500)%N
  /\ alerts (ui (advance 500
                   (submit ResumeUpload.upload_url
                      (Fulfilled {| status := 200; rdata := Sample.good_match |})
                      (advance 1500 (copy "Python" true Sample.page))))) = [].
Proof.
  split; [reflexivity|]. split; [reflexivity|].
  split; [reflexivity|]. split; [discriminate|].
  apply (copy_timer_clears_evaluation_message "Python" ResumeUpload.upload_url
           Sample.page Sample.cv {| status := 200; rdata := Sample.good_match |}
           1500 500 eq_refl eq_refl eq_refl).
  discriminate.
Defined.

(** X16. Timers are never cancelled: a second successful copy within
    the 2000 ms of the first starts a second timer, and its confirmation is
    removed when the first timer fires, 2000 ms after the first copy. *)
Theorem second_copy_cleared_by_first_timer (text1 text2 : string) (w : world)
    (dt : N) (Hidle : timers w = []) (Hsoon : (dt < 2000)%N) :
  let again := copy text2 true (advance dt (copy text1 true w)) in
  success (ui again) = "Copied to clipboard"
  /\ length (timers again) = 2%nat
  /\ clock again = (clock w + dt)%N
  /\ success (ui (advance (2000 - dt) again)) = "".
Proof.
  cbn zeta.
  destruct (copy_fulfilled text1 w) as (Hu1 & Hc1 & Ht1).
  rewrite Hidle in Ht1. cbn [enqueue] in Ht1.
  destruct (advance_before dt _ _ _ _ Ht1) as (Hu2 & Ht2 & Hc2); [lia|].
  destruct (copy_fulfilled text2 (advance dt (copy text1 true w)))
    as (Hu3 & Hc3 & Ht3).
  rewrite Ht2, Ht1, Hc2, Hc1 in Ht3. cbn [enqueue] in Ht3.
  destruct (N.leb_spec (clock w + 2000) (clock w + dt + 2000)) in Ht3; [|lia].
  split; [by rewrite Hu3|]. split; [by rewrite Ht3|].
  split; [by rewrite Hc3, Hc2, Hc1|].
  rewrite Hc2, Hc1 in Hc3.
  set (again := copy text2 true (advance dt (copy text1 true w))) in *.
  unfold advance. rewrite Ht3, Hc3. cbn [fire_due].
  destruct (N.leb_spec (clock w + 2000) (clock w + dt + (2000 - dt))); [|lia].
  destruct (N.leb_spec (clock w + dt + 2000) (clock w + dt + (2000 - dt)));
    reflexivity.
Qed.

Lemma second_copy_cleared_by_first_timer_witness :
  timers Sample.page = [] /\ (1500 < 2000)%N
  /\ success (ui (advance (2000 - 1500)
                    (copy "SQL" true (advance 1500 (copy "Python" true Sample.page)))))
     = "".
Proof.
  split; [reflexivity|]. split; [reflexivity|].
  apply (second_copy_cleared_by_first_timer "Python" "SQL" Sample.page 1500
           eq_refl eq_refl).
Defined.

Section Alerts.
Variable VITE_API_URL : string.

(** X17. The error and the success alert are not exclusive: a failed
    copy, a submit stopped by the missing-file check and an export that is
    refused or fails set the error and leave the success message, so that
    with a success message on display both alerts are shown. *)
Theorem failure_keeps_success_alert (upload_url text : string) (w : world)
    (err : AxiosError) (Hsuccess : success (ui w) <> "") :
  alerts (ui (copy text false w))
  = [ErrorAlert (VStr "Failed to copy"); SuccessAlert (success (ui w))]
  /\ (resume (ui w) = None ->
      forall o, alerts (submit_and_settle upload_url (ui w) o)
                = [ErrorAlert (VStr "Please upload a resume file.");
                   SuccessAlert (success (ui w))])
  /\ (truthy (result (ui w)) = false ->
      alerts (export_and_settle VITE_API_URL (ui w) (Rejected err))
      = [ErrorAlert (VStr "No feedback available to export.");
         SuccessAlert (success (ui w))])
  /\ (truthy (result (ui w)) = true ->
      alerts (export_and_settle VITE_API_URL (ui w) (Rejected err))
      = [ErrorAlert (VStr "Failed to download PDF. Please try again.");
         SuccessAlert (success (ui w))]).
Proof.
  assert (Ht : truthy (VStr (success (ui w))) = true).
  { cbn. by destruct (String.eqb_spec (success (ui w)) ""). }
  split; [|split; [|split]].
  - destruct (copy_rejected text w) as (-> & _). unfold alerts.
    cbn [error success set_error]. by rewrite Ht.
  - intros Hnone o. rewrite (submit_and_settle_no_file _ _ _ Hnone).
    unfold alerts. cbn [error success set_error]. by rewrite Ht.
  - intros Hres. unfold export_and_settle, ResumeUploadImproved.handleDownloadPDF.
    rewrite Hres. unfold alerts. cbn. cbn in Ht. by rewrite Ht.
  - intros Hres. unfold export_and_settle, ResumeUploadImproved.handleDownloadPDF.
    rewrite Hres. unfold alerts. cbn. cbn in Ht. by rewrite Ht.
Qed.

End Alerts.

Lemma failure_keeps_success_alert_witness :
  success (ui Sample.page) <> ""
  /\ alerts (ui (copy "Python" false Sample.page))
     = [ErrorAlert (VStr "Failed to copy");
        SuccessAlert "Resume evaluated successfully!"].
Proof.
  split; [discriminate|].
  apply (failure_keeps_success_alert "" ResumeUpload.upload_url "Python"
           Sample.page Sample.network_down).
  discriminate.
Defined.

(** *** While a submission is pending *)

Section Pending.
Variable StringToNumber : string -> num.
Variable ObjectToNumber : value -> num.

(** X18. From the moment a submit with a file has issued its request
    the page shows no alert and no results panel, in either variant, and
    the export button is disabled, whatever was on display before. *)
Theorem pending_submit_shows_nothing (upload_url : string) (st : state)
    (file : File) (Hfile : resume st = Some file) :
  let pending := state_after (Component.handleSubmit upload_url st) st in
  alerts pending = []
  /\ ResumeUpload.results pending = None
  /\ ResumeUploadImproved.results StringToNumber ObjectToNumber pending = None
  /\ exportDisabled pending = true
  /\ resume pending = Some file
  /\ jobDescription pending = jobDescription st.
Proof.
  cbn zeta.
  destruct (run_handleSubmit_file upload_url st file Hfile) as (k & Hrun & _).
  unfold state_after. rewrite Hrun. cbn [fst]. repeat split; assumption.
Qed.

End Pending.

Lemma pending_submit_shows_nothing_witness :
  resume Sample.evaluated = Some Sample.cv
  /\ alerts (state_after (ResumeUpload.handleSubmit Sample.evaluated)
               Sample.evaluated) = [].
Proof.
  split; [reflexivity|].
  apply (pending_submit_shows_nothing (fun _ => NaN) (fun _ => NaN)
           ResumeUpload.upload_url Sample.evaluated Sample.cv eq_refl).
Defined.

(** *** Choosing a file *)

(** X19. Choosing a file, or leaving the dialog without one, never
    touches the result: the previous evaluation stays on display.  In the
    two later variants it removes both alerts; in the draft it leaves the
    error, so that the message of a failed submission is still shown after
    another file has been chosen. *)
Theorem file_change_keeps_result (st : state) (file : option File) :
  result (state_after (Component.handleFileChange file) st) = result st
  /\ resume (state_after (Component.handleFileChange file) st) = file
  /\ alerts (state_after (Component.handleFileChange file) st) = []
  /\ result (state_after (ResumeUploadDraft.handleFileChange file) st) = result st
  /\ draft_alerts (state_after (ResumeUploadDraft.handleFileChange file) st)
     = draft_alerts st
  /\ (forall chosen err, resume st = Some chosen ->
        draft_alerts
          (state_after (ResumeUploadDraft.handleFileChange file)
             (draft_submit_and_settle st (Rejected err)))
        = [ErrorAlert (VStr "Failed to process the resume. Please try again.")]).
Proof.
  repeat split.
  intros chosen err H. unfold draft_submit_and_settle,
    ResumeUploadDraft.handleSubmit. rewrite H. reflexivity.
Qed.

Lemma file_change_keeps_result_witness :
  resume Sample.chosen = Some Sample.cv
  /\ draft_alerts
       (state_after (ResumeUploadDraft.handleFileChange (Some Sample.cv))
          (draft_submit_and_settle Sample.chosen (Rejected Sample.network_down)))
     = [ErrorAlert (VStr "Failed to process the resume. Please try again.")].
Proof.
  split; [reflexivity|].
  apply (file_change_keeps_result Sample.chosen (Some Sample.cv)) with Sample.cv.
  reflexivity.
Defined.

(** *** The draft *)

Lemma draft_submit_rejected (st : state) (file : File) (err : AxiosError) :
  resume st = Some file ->
  draft_submit_and_settle st (Rejected err)
  = set_loading false (set_error (VStr ResumeUploadDraft.msg_failed)
      (set_result VNull (set_error (VStr "") (set_loading true st)))).
Proof.
  intros H. unfold draft_submit_and_settle, ResumeUploadDraft.handleSubmit.
  rewrite H. reflexivity.
Qed.

(** X20. The draft reports every failed submission with the same
    message: the state it ends in does not depend on the error at all, so
    neither the error string of the server nor the status code is shown. *)
Theorem draft_failure_is_uniform (st : state) (file : File)
    (err err' : AxiosError) (Hfile : resume st = Some file) :
  error (draft_submit_and_settle st (Rejected err))
  = VStr "Failed to process the resume. Please try again."
  /\ draft_submit_and_settle st (Rejected err)
     = draft_submit_and_settle st (Rejected err')
  /\ result (draft_submit_and_settle st (Rejected err)) = VNull
  /\ loading (draft_submit_and_settle st (Rejected err)) = false.
Proof.
  rewrite !(draft_submit_rejected _ _ _ Hfile). repeat split.
Qed.

Lemma draft_failure_is_uniform_witness :
  resume Sample.chosen = Some Sample.cv
  /\ draft_submit_and_settle Sample.chosen (Rejected Sample.corrupt_file)
     = draft_submit_and_settle Sample.chosen (Rejected Sample.network_down).
Proof.
  split; [reflexivity|].
  apply (draft_failure_is_uniform Sample.chosen Sample.cv Sample.corrupt_file
           Sample.network_down eq_refl).
Defined.

(** *** Which metrics are shown *)

Lemma draft_shows_number (r : value) (m : metric) (n : node) (v : num) :
  n ∈ ResumeUploadDraft.scores r -> ResumeUploadDraft.shows n = Some (m, v) ->
  member r (field m) = VNum v.
Proof.
  unfold ResumeUploadDraft.scores. rewrite !elem_of_app.
  intros [H|[H|[H|H]]] Hs; apply elem_of_guarded in H as (k & Hk & ->);
    cbn in Hs; injection Hs as <- <-; exact Hk.
Qed.

Lemma draft_number_shown (r : value) (m : metric) (v : num) :
  member r (field m) = VNum v ->
  exists n, n ∈ ResumeUploadDraft.scores r
            /\ ResumeUploadDraft.shows n = Some (m, v).
Proof.
  intros H. unfold ResumeUploadDraft.scores.
  destruct m; cbn [field] in H; rewrite H.
  - exists (Line "ATS Score: " v). split; [|reflexivity].
    apply elem_of_app. left. apply list_elem_of_singleton. reflexivity.
  - exists (Line "Keyword Overlap: " v). split; [|reflexivity].
    apply elem_of_app. right. apply elem_of_app. left.
    apply list_elem_of_singleton. reflexivity.
  - exists (Line "Semantic Similarity: " v). split; [|reflexivity].
    do 2 (apply elem_of_app; right). apply elem_of_app. left.
    apply list_elem_of_singleton. reflexivity.
  - exists (Line "Overall Match Score: " v). split; [|reflexivity].
    do 3 (apply elem_of_app; right).
    apply list_elem_of_singleton. reflexivity.
Qed.

(** X21. The draft and the earlier variant show a metric exactly when
    its field is a number, and then with the number as it was received,
    not rounded and not cut to a range; the current variant does so for
    the ATS score. *)
Theorem metric_shown_iff_number (StringToNumber : string -> num)
    (ObjectToNumber : value -> num) (r : value) (m : metric) (v : num) :
  ((exists n, n ∈ ResumeUpload.scores r /\ ResumeUpload.shows n = Some (m, v))
   <-> member r (field m) = VNum v)
  /\ ((exists n, n ∈ ResumeUploadDraft.scores r
                 /\ ResumeUploadDraft.shows n = Some (m, v))
      <-> member r (field m) = VNum v)
  /\ ((exists n, n ∈ ResumeUploadImproved.scores StringToNumber ObjectToNumber r
                 /\ ResumeUploadImproved.shows n = Some (ats_score, v))
      <-> member r "ats_score" = VNum v).
Proof.
  split; [|split]; split.
  - intros (n & Hin & Hs). exact (basic_shows_number r m n v Hin Hs).
  - apply basic_number_shown.
  - intros (n & Hin & Hs). exact (draft_shows_number r m n v Hin Hs).
  - apply draft_number_shown.
  - intros (n & Hin & Hs).
    exact (improved_ats_number StringToNumber ObjectToNumber r n v Hin Hs).
  - intros H. exists (AtsScore v (bar v) (getScoreColor v)). split; [|reflexivity].
    unfold ResumeUploadImproved.scores. rewrite H.
    apply elem_of_app. right. apply list_elem_of_here.
Qed.

(** *** Case and the list filter *)

Lemma all_units_complete (a : ascii) : In a Letters.all_units.
Proof.
  unfold Letters.all_units. rewrite <- (ascii_nat_embedding a).
  apply in_map. apply in_seq. pose proof (nat_ascii_bounded a). lia.
Qed.

Lemma lower_unit_table :
  forallb (fun a =>
    forallb (fun b =>
      Bool.eqb (Ascii.eqb (lower_unit a) (lower_unit b))
               (Letters.same_letter a b))
      Letters.all_units)
    Letters.all_units = true.
Proof. vm_compute. reflexivity. Qed.

(** Two units have the same lower case exactly when they are the same
    letter in the table of capital and small letters. *)
Lemma lower_unit_same_letter (a b : ascii) :
  lower_unit a = lower_unit b <-> Letters.same_letter a b = true.
Proof.
  pose proof lower_unit_table as H.
  rewrite forallb_forall in H. specialize (H a (all_units_complete a)).
  rewrite forallb_forall in H. specialize (H b (all_units_complete b)).
  apply Bool.eqb_prop in H. rewrite <- H.
  destruct (Ascii.eqb_spec (lower_unit a) (lower_unit b)); split; congruence.
Qed.

Lemma toLowerCase_same_text (t q : string) :
  toLowerCase t = toLowerCase q <-> Letters.same_text t q = true.
Proof.
  revert q. induction t as [|a t IH]; intros [|b q]; cbn; try (split; congruence).
  rewrite andb_true_iff, <- IH, <- lower_unit_same_letter.
  split; [intros [= H1 H2]; auto|intros [-> ->]; reflexivity].
Qed.

Lemma toLowerCase_split (s a b : string) :
  toLowerCase s = a ++ b ->
  exists s1 s2, s = s1 ++ s2 /\ toLowerCase s1 = a /\ toLowerCase s2 = b.
Proof.
  revert s. induction a as [|x a IH]; intros s H.
  - exists "", s. repeat split. exact H.
  - destruct s as [|c s]; [discriminate|].
    rewrite string_app_cons in H. cbn [toLowerCase] in H.
    injection H as Hc Hs. destruct (IH s Hs) as (s1 & s2 & -> & H1 & H2).
    exists (String c s1), s2. repeat split; [|exact H2].
    cbn [toLowerCase]. by rewrite Hc, H1.
Qed.

(** On units below 256 the callback of the filter answers whether the
    query occurs in the item, whatever the case of the letters. *)
Lemma matches_contains_ignoring_case (query s : string) :
  ResumeUploadImproved.matches query s = true
  <-> Letters.contains_ignoring_case query s.
Proof.
  unfold ResumeUploadImproved.matches, Letters.contains_ignoring_case.
  rewrite includes_spec. split.
  - intros (pre' & post' & H).
    apply toLowerCase_split in H as (pre & rest & -> & Hpre & H).
    apply toLowerCase_split in H as (t & post & -> & Ht & Hpost).
    exists pre, t, post. split; [reflexivity|].
    by apply toLowerCase_same_text.
  - intros (pre & t & post & -> & Ht). apply toLowerCase_same_text in Ht.
    exists (toLowerCase pre), (toLowerCase post).
    by rewrite !toLowerCase_app, Ht.
Qed.

Lemma code_eqb_eq (a b : Wide.code) : Wide.code_eqb a b = true <-> a = b.
Proof.
  destruct a as [x| | |], b as [y| | |]; cbn; try (split; congruence).
  destruct (Ascii.eqb_spec x y); split; congruence.
Qed.

Lemma wide_startsWith_spec (s q : Wide.text) :
  Wide.startsWith s q = true <-> exists post, s = (q ++ post)%list.
Proof.
  revert s. induction q as [|b q IH]; intros s.
  - destruct s; cbn; split; eauto.
  - destruct s as [|a s]; cbn.
    + split; [discriminate|]. intros [post H]. discriminate.
    + destruct (Wide.code_eqb a b) eqn:E.
      * apply code_eqb_eq in E as ->. rewrite IH.
        split; intros [post H]; exists post; congruence.
      * split; [discriminate|]. intros [post H]. injection H as -> _.
        assert (Wide.code_eqb b b = true) by by apply code_eqb_eq.
        congruence.
Qed.

Lemma wide_includes_spec (s q : Wide.text) :
  Wide.includes s q = true <-> exists pre post, s = (pre ++ q ++ post)%list.
Proof.
  induction s as [|a s IH]; cbn [Wide.includes].
  - rewrite orb_false_r, wide_startsWith_spec. split.
    + intros [post H]. exists [], post. exact H.
    + intros (pre & post & H). destruct pre; [eauto|discriminate].
  - rewrite orb_true_iff, wide_startsWith_spec, IH. split.
    + intros [[post H]|(pre & post & H)].
      * exists [], post. exact H.
      * exists (a :: pre), post. cbn. by rewrite H.
    + intros (pre & post & H). destruct pre as [|c pre].
      * left. exists post. exact H.
      * right. injection H as _ H. eauto.
Qed.

Lemma wide_includes_nil (s : Wide.text) : Wide.includes s [] = true.
Proof. destruct s; reflexivity. Qed.

(** A string of units below 256 behaves as a text in the same way. *)
Lemma wide_lower_of_string (before : Wide.text) (s : string) :
  Wide.lower_from before (Wide.of_string s) = Wide.of_string (toLowerCase s).
Proof.
  revert before. induction s as [|c s IH]; intros before; [reflexivity|].
  cbn. f_equal. apply IH.
Qed.

Lemma wide_startsWith_of_string (s q : string) :
  Wide.startsWith (Wide.of_string s) (Wide.of_string q) = startsWith s q.
Proof.
  revert s. induction q as [|b q IH]; intros [|a s]; try reflexivity.
  cbn. rewrite <- IH. reflexivity.
Qed.

Lemma wide_includes_of_string (s q : string) :
  Wide.includes (Wide.of_string s) (Wide.of_string q) = includes s q.
Proof.
  induction s as [|a s IH].
  - cbn [includes]. rewrite <- wide_startsWith_of_string. reflexivity.
  - cbn [includes]. rewrite <- IH, <- wide_startsWith_of_string. reflexivity.
Qed.

Lemma wide_matches_of_string (query s : string) :
  Wide.matches (Wide.of_string query) (Wide.of_string s)
  = ResumeUploadImproved.matches query s.
Proof.
  unfold Wide.matches, Wide.toLowerCase, ResumeUploadImproved.matches.
  by rewrite !wide_lower_of_string, wide_includes_of_string.
Qed.

Lemma Array_filter_map_through {A B : Type} (f : A -> B) (p : B -> bool)
    (q : A -> bool) (xs : list A) :
  (forall x, p (f x) = q x) ->
  Array_filter p (map f xs) = map f (Array_filter q xs).
Proof.
  intros H. induction xs as [|x xs IH]; cbn; [reflexivity|].
  rewrite H. destruct (q x); cbn; by rewrite IH.
Qed.

(** The two filters of a render leave every array of the store as it
    was, their two sources included, and return two new arrays. *)
Lemma filteredLists_fresh (h : gmap loc (list Wide.text))
    (strengths weaknesses : loc) (ls lw : list Wide.text)
    (qs qw : Wide.text) :
  h !! strengths = Some ls -> h !! weaknesses = Some lw ->
  exists fs fw h',
    Wide.filteredLists h strengths weaknesses qs qw = Some (fs, fw, h')
    /\ h !! fs = None /\ h !! fw = None /\ fs <> fw
    /\ h' !! fs = Some (Wide.filter ls qs)
    /\ h' !! fw = Some (Wide.filter lw qw)
    /\ (forall b, is_Some (h !! b) -> h' !! b = h !! b).
Proof.
  intros Hs Hw. unfold Wide.filteredLists.
  destruct (Array_filter_at_fresh (Wide.matches qs) strengths ls h Hs)
    as (fs & -> & Hfs).
  assert (Hw1 : <[fs := Array_filter (Wide.matches qs) ls]> h !! weaknesses
                = Some lw).
  { rewrite lookup_insert_ne; [exact Hw|]. intros ->. congruence. }
  destruct (Array_filter_at_fresh (Wide.matches qw) weaknesses lw _ Hw1)
    as (fw & -> & Hfw).
  assert (Hne : fs <> fw).
  { intros ->. rewrite lookup_insert_eq in Hfw. discriminate. }
  rewrite lookup_insert_ne in Hfw by exact Hne.
  eexists fs, fw, _. split; [reflexivity|].
  split; [exact Hfs|]. split; [exact Hfw|]. split; [exact Hne|].
  split; [by rewrite lookup_insert_ne, lookup_insert_eq|].
  split; [by rewrite lookup_insert_eq|].
  intros b [x Hb]. rewrite !lookup_insert_ne; [reflexivity|..];
    intros ->; congruence.
Qed.

(** C5 fails beyond Latin-1: the item "AΣ" contains the query "Σ" as it
    stands, yet the filter leaves it out, because the capital sigma at the
    end of the item becomes the final sigma and the sigma of the query the
    small one. *)
Lemma sigma_item_filtered_out :
  [Wide.L1 "A"%char; Wide.CapitalSigma]
  = ([Wide.L1 "A"%char] ++ [Wide.CapitalSigma] ++ [])%list
  /\ Wide.toLowerCase [Wide.L1 "A"%char; Wide.CapitalSigma]
     = [Wide.L1 "a"%char; Wide.FinalSigma]
  /\ Wide.toLowerCase [Wide.CapitalSigma] = [Wide.SmallSigma]
  /\ Wide.filter [[Wide.L1 "A"%char; Wide.CapitalSigma]] [Wide.CapitalSigma]
     = [].
Proof. repeat split. Qed.

(** C5, amended. For every list and every query, [filter] returns
    exactly the items whose lower-case text contains the lower-case query,
    in their original order (no other list does), and the whole list for
    the empty query; the two filters of a render write to no array of the
    store, their sources included, and return new arrays.  On text of units
    below 256 the items returned are exactly those in which the query
    occurs whatever the case of the letters. *)
Theorem filter_lower_case_containment (items : list Wide.text)
    (query : Wide.text) :
  kept (fun s => exists pre post,
          Wide.toLowerCase s = (pre ++ Wide.toLowerCase query ++ post)%list)
       items (Wide.filter items query)
  /\ (forall out,
        kept (fun s => exists pre post,
                Wide.toLowerCase s
                = (pre ++ Wide.toLowerCase query ++ post)%list)
             items out ->
        out = Wide.filter items query)
  /\ Wide.filter items query `sublist_of` items
  /\ Wide.filter items [] = items
  /\ (forall (h : gmap loc (list Wide.text)) (strengths weaknesses : loc)
             (others : list Wide.text) (weaknessesFilter : Wide.text),
        h !! strengths = Some items -> h !! weaknesses = Some others ->
        exists filteredStrengths filteredWeaknesses h',
          Wide.filteredLists h strengths weaknesses query weaknessesFilter
          = Some (filteredStrengths, filteredWeaknesses, h')
          /\ h !! filteredStrengths = None /\ h !! filteredWeaknesses = None
          /\ h' !! filteredStrengths = Some (Wide.filter items query)
          /\ h' !! filteredWeaknesses
             = Some (Wide.filter others weaknessesFilter)
          /\ h' !! strengths = Some items /\ h' !! weaknesses = Some others
          /\ (forall b, is_Some (h !! b) -> h' !! b = h !! b))
  /\ (forall (latin : list string) (q : string),
        Wide.filter (map Wide.of_string latin) (Wide.of_string q)
        = map Wide.of_string (ResumeUploadImproved.filter latin q)
        /\ kept (Letters.contains_ignoring_case q) latin
                (ResumeUploadImproved.filter latin q)
        /\ (forall out, kept (Letters.contains_ignoring_case q) latin out ->
                        out = ResumeUploadImproved.filter latin q)
        /\ ResumeUploadImproved.filter latin "" = latin).
Proof.
  assert (Hk : kept (fun s => exists pre post,
                       Wide.toLowerCase s
                       = (pre ++ Wide.toLowerCase query ++ post)%list)
                 items (Wide.filter items query)).
  { eapply kept_iff; [|apply Array_filter_kept].
    intros s. apply wide_includes_spec. }
  split; [exact Hk|].
  split; [intros out Hout; exact (kept_functional _ _ _ _ Hout Hk)|].
  split; [apply Array_filter_sublist|].
  split; [apply Array_filter_all; intros s; apply wide_includes_nil|].
  split.
  - intros h strengths weaknesses others wq Hs Hw.
    destruct (filteredLists_fresh h strengths weaknesses items others query wq
                Hs Hw) as (fs & fw & h' & Hrun & Hfs & Hfw & _ & H1 & H2 & Hold).
    exists fs, fw, h'. split; [exact Hrun|].
    split; [exact Hfs|]. split; [exact Hfw|].
    split; [exact H1|]. split; [exact H2|].
    split; [rewrite Hold; [exact Hs|eauto]|].
    split; [rewrite Hold; [exact Hw|eauto]|exact Hold].
  - intros latin q.
    assert (Hl : kept (Letters.contains_ignoring_case q) latin
                   (ResumeUploadImproved.filter latin q)).
    { eapply kept_iff; [|apply Array_filter_kept].
      intros s. apply matches_contains_ignoring_case. }
    split.
    { apply Array_filter_map_through. intros s. apply wide_matches_of_string. }
    split; [exact Hl|].
    split; [intros out Hout; exact (kept_functional _ _ _ _ Hout Hl)|].
    apply Array_filter_all. intros s. apply includes_empty.
Qed.

Lemma filter_lower_case_containment_witness :
  ({[1%positive := [[Wide.L1 "A"%char; Wide.CapitalSigma]];
     2%positive := [[Wide.L1 "B"%char]]]} : gmap loc (list Wide.text))
    !! 1%positive = Some [[Wide.L1 "A"%char; Wide.CapitalSigma]]
  /\ ({[1%positive := [[Wide.L1 "A"%char; Wide.CapitalSigma]];
        2%positive := [[Wide.L1 "B"%char]]]} : gmap loc (list Wide.text))
       !! 2%positive = Some [[Wide.L1 "B"%char]]
  /\ exists filteredStrengths filteredWeaknesses h',
       Wide.filteredLists
         {[1%positive := [[Wide.L1 "A"%char; Wide.CapitalSigma]];
           2%positive := [[Wide.L1 "B"%char]]]}
         1%positive 2%positive [Wide.CapitalSigma] [Wide.L1 "b"%char]
       = Some (filteredStrengths, filteredWeaknesses, h')
       /\ h' !! 1%positive = Some [[Wide.L1 "A"%char; Wide.CapitalSigma]]
       /\ h' !! filteredStrengths = Some []
       /\ h' !! filteredWeaknesses = Some [[Wide.L1 "B"%char]].
Proof.
  assert (Ha : ({[1%positive := [[Wide.L1 "A"%char; Wide.CapitalSigma]];
                  2%positive := [[Wide.L1 "B"%char]]]}
                : gmap loc (list Wide.text)) !! 1%positive
               = Some [[Wide.L1 "A"%char; Wide.CapitalSigma]]) by reflexivity.
  assert (Hb : ({[1%positive := [[Wide.L1 "A"%char; Wide.CapitalSigma]];
                  2%positive := [[Wide.L1 "B"%char]]]}
                : gmap loc (list Wide.text)) !! 2%positive
               = Some [[Wide.L1 "B"%char]]) by reflexivity.
  split; [exact Ha|]. split; [exact Hb|].
  destruct (filter_lower_case_containment
              [[Wide.L1 "A"%char; Wide.CapitalSigma]] [Wide.CapitalSigma])
    as (_ & _ & _ & _ & Hstore & _).
  destruct (Hstore _ _ _ _ [Wide.L1 "b"%char] Ha Hb)
    as (fs & fw & h' & Hrun & _ & _ & H1 & H2 & Hs & _).
  exists fs, fw, h'. split; [exact Hrun|]. split; [exact Hs|].
  split; [exact H1|exact H2].
Defined.

(** *** The timers of a page that can be reached *)

Import Reach.





Section Queue.
Variable P : N * (state -> state) -> Prop.



End Queue.










